(** * Supervisor / worker hierarchy: a shallow embedding of
      [supervisor_and_worker.py] and the properties of its setters,
      gross-pay rule, bounded roster and bonus rule.

    The three classes [Employee], [ProductionWorker] and [ShiftSupervisor]
    become records; every property setter and method becomes a computation
    in a small state-and-exception monad over the record of its class, so
    that "stores the default" and "raises" are both visible in the result.

    Python is dynamically typed: the arguments of the setters are values of
    the universe [PyVal] below. *)

From Stdlib Require Import ZArith NArith List Bool String Ascii Lia.
Import ListNotations.
Open Scope Z_scope.

(** ** Python values *)

(** A [str] is a sequence of Unicode code points. *)
Definition str : Type := list N.

Definition codepoints (s : string) : str :=
  map N_of_ascii (list_ascii_of_string s).

(** [class Shift(Enum)]: DAY = 1, SWING = 2, NIGHT = 3. *)
Inductive Shift : Type := DAY | SWING | NIGHT.

(** [member.value] *)
Definition Shift_value (m : Shift) : Z :=
  match m with
  | DAY => 1
  | SWING => 2
  | NIGHT => 3
  end.

Definition Shift_eqb (a b : Shift) : bool :=
  match a, b with
  | DAY, DAY | SWING, SWING | NIGHT, NIGHT => true
  | _, _ => false
  end.

(** The values a caller can pass.  [VOther] stands for an object of any
    other type (a list, a dict, an instance of another class, a member of
    another enumeration, ...): it fails every [type(x) is T] test of the
    program and has no ordering against an [int].  Floats are not part of
    the universe; in the validators, which only test the type, a float
    behaves as [VOther] does. *)
Inductive PyVal : Type :=
| VNone
| VBool (b : bool)
| VInt (z : Z)
| VStr (s : str)
| VShift (m : Shift)
| VOther (tag : N).

Inductive PyExc : Type := TypeError | ValueError | MemoryError | IsFull.

Inductive outcome (A : Type) : Type :=
| Ret (a : A)
| Raise (e : PyExc).
Arguments Ret {A} a.
Arguments Raise {A} e.

(** ** Computations on an object: state passing with exceptions.
    The object survives an exception, with the attributes assigned before
    the raise. *)
Definition Py (S A : Type) : Type := S -> outcome A * S.

Definition ret {S A} (a : A) : Py S A := fun s => (Ret a, s).
Definition raise {S A} (e : PyExc) : Py S A := fun s => (Raise e, s).
Definition bind {S A B} (c : Py S A) (k : A -> Py S B) : Py S B :=
  fun s => match c s with
           | (Ret a, s') => k a s'
           | (Raise e, s') => (Raise e, s')
           end.
Definition get {S} : Py S S := fun s => (Ret s, s).
Definition modify {S} (f : S -> S) : Py S unit := fun s => (Ret tt, f s).
Definition call {S A} (o : outcome A) : Py S A := fun s => (o, s).

(** A method of the base class run on the base part of a derived object. *)
Definition inherited {S T A} (proj : S -> T) (upd : T -> S -> S)
           (c : Py T A) : Py S A :=
  fun s => let '(o, t) := c (proj s) in (o, upd t s).

Notation "x <- c ;; k" := (bind c (fun x => k))
  (at level 61, c at next level, right associativity).
Notation "c ;;; k" := (bind c (fun _ => k))
  (at level 61, right associativity).

(** ** Built-in operations the program applies to unvalidated values *)

(** [int] and its subclass [bool] are the numbers of the universe. *)
Definition as_number (v : PyVal) : option Z :=
  match v with
  | VInt z => Some z
  | VBool b => Some (Z.b2z b)
  | _ => None
  end.

(** [v < k] and [v <= k] for an [int] constant [k]: a comparison of values
    for numbers, [TypeError] for everything else. *)
Definition py_lt_int (v : PyVal) (k : Z) : outcome bool :=
  match as_number v with
  | Some z => Ret (z <? k)
  | None => Raise TypeError
  end.

Definition py_le_int (v : PyVal) (k : Z) : outcome bool :=
  match as_number v with
  | Some z => Ret (z <=? k)
  | None => Raise TypeError
  end.

(** [type(v) is int and lo <= v <= hi]; a [bool] is no [int] for this
    test. *)
Definition int_between (lo hi : Z) (v : PyVal) : bool :=
  match v with
  | VInt z => (lo <=? z) && (z <=? hi)
  | _ => false
  end.

(** The content of a value that a type test has already accepted. *)
Definition the_str (v : PyVal) : str :=
  match v with VStr s => s | _ => [] end.
Definition the_int (v : PyVal) : Z :=
  match v with VInt z => z | _ => 0 end.
Definition the_number (v : PyVal) : Z :=
  match as_number v with Some z => z | None => 0 end.
Definition the_Shift (v : PyVal) : Shift :=
  match v with VShift m => m | _ => DAY end.

(** [Shift(value)]: the member with that value, [ValueError] otherwise. *)
Definition Shift_call (z : Z) : outcome Shift :=
  if z =? 1 then Ret DAY
  else if z =? 2 then Ret SWING
  else if z =? 3 then Ret NIGHT
  else Raise ValueError.

Section Hierarchy.

(** [str.isnumeric] consults the Unicode character database of the
    interpreter, which is no part of the program: the per-character test is
    a parameter. *)
Variable Py_UNICODE_ISNUMERIC : N -> bool.

(** [v in Shift] is [EnumMeta.__contains__] of the interpreter's [enum]
    module, which is no part of the program.  On a member of [Shift] it is
    [True] in every version of the module.  On any other value the answer
    depends on the version: [False] up to Python 3.7; [TypeError] from 3.8
    to 3.11 when the value is no member of any enumeration; from 3.12
    [True] for a value equal to the value of a member and [False]
    otherwise.  The answer on a value that is no member of [Shift] is a
    parameter. *)
Variable Shift_contains_other : PyVal -> outcome bool.

Definition in_Shift (v : PyVal) : outcome bool :=
  match v with
  | VShift _ => Ret true
  | _ => Shift_contains_other v
  end.

(** [numpy.empty] needs memory for the array: [numpy] refuses a shape
    beyond its largest array size with [ValueError], and the allocation of
    a shape within that size fails with [MemoryError] when the machine has
    not got the memory.  Whether an object array of [n] slots is refused,
    and with which exception, is a parameter. *)
Variable numpy_refuses : Z -> option PyExc.

(** [s.isnumeric()]: at least one character and all of them numeric. *)
Definition isnumeric (s : str) : bool :=
  match s with
  | [] => false
  | _ :: _ => forallb Py_UNICODE_ISNUMERIC s
  end.

(** ** class Employee *)

Definition DEFAULT_NAME : str := Eval cbv in codepoints "unidentified".
Definition DEFAULT_NUM : Z := 1234.
Definition BENEFIT_ID : Z := 5000.
Definition MIN_EMPLY_NUM : Z := 1000.
Definition MAX_EMPLY_NUM : Z := 99999.

(** The private attributes [__name], [__number], [__benefits], named after
    their accessors.  The setters only ever assign a [str] to [__name] and
    an [int] to [__number]. *)
Record Employee : Type := mkEmployee {
  employee_name : str;
  employee_num : Z;
  get_determine_benefits : bool
}.

Definition with_name (n : str) (e : Employee) : Employee :=
  mkEmployee n (employee_num e) (get_determine_benefits e).
Definition with_number (z : Z) (e : Employee) : Employee :=
  mkEmployee (employee_name e) z (get_determine_benefits e).
Definition with_benefits (b : bool) (e : Employee) : Employee :=
  mkEmployee (employee_name e) (employee_num e) b.

(** [type(the_name) is str and the_name.isnumeric() is False] *)
Definition validate_name (the_name : PyVal) : bool :=
  match the_name with
  | VStr s => negb (isnumeric s)
  | _ => false
  end.

(** [type(employee_id) is int and MIN <= employee_id <= MAX] *)
Definition validate_id (employee_id : PyVal) : bool :=
  int_between MIN_EMPLY_NUM MAX_EMPLY_NUM employee_id.

(** [return number < Employee.BENEFIT_ID] *)
Definition determine_benefits (number : PyVal) : outcome bool :=
  py_lt_int number BENEFIT_ID.

(** [@employee_name.setter] *)
Definition set_employee_name (name : PyVal) : Py Employee unit :=
  if validate_name name
  then modify (with_name (the_str name))
  else modify (with_name DEFAULT_NAME).

(** [@employee_num.setter]: the id is validated and stored, then the
    benefits flag is computed by [determine_benefits(number)], on the
    argument of the setter. *)
Definition set_employee_num (number : PyVal) : Py Employee unit :=
  (if validate_id number
   then modify (with_number (the_int number))
   else modify (with_number DEFAULT_NUM)) ;;;
  b <- call (determine_benefits number) ;;
  if b then modify (with_benefits true)
  else modify (with_benefits false).

(** [Employee.__init__(self, name, number)] *)
Definition Employee_init (name number : PyVal) : Py Employee unit :=
  set_employee_name name ;;;
  set_employee_num number.

(** An object whose attributes are not assigned yet; [__init__] assigns
    every one of them before it returns. *)
Definition Employee_blank : Employee := mkEmployee [] 0 false.

(** [Employee(name, number)] *)
Definition Employee_new (name number : PyVal) : outcome Employee :=
  match Employee_init name number Employee_blank with
  | (Ret _, e) => Ret e
  | (Raise x, _) => Raise x
  end.

(** ** class ProductionWorker(Employee) *)

Definition PW_DEFAULT_SHIFT : Shift := DAY.
Definition DEFAULT_HOURLY_RAY_RATE : Z := 1.
Definition DEFAULT_HOURS_WORKED : Z := 0.
Definition MIN_HOURLY_PAY_RATE : Z := 0.
Definition MAX_HOURLY_PAY_RATE : Z := 20.
Definition MIN_HOURS_WORKED : Z := 0.
Definition MAX_HOURS_WORKED : Z := 40.

(** [__shift], [__rate] and [__hour] hold whatever value the setters
    assign: [gross_pay] validates them again when it reads them. *)
Record ProductionWorker : Type := mkProductionWorker {
  pw_employee : Employee;
  employee_shift : PyVal;
  hourly_pay_rate : PyVal;
  hours_worked : PyVal
}.

Definition pw_with_employee (e : Employee) (w : ProductionWorker) :=
  mkProductionWorker e (employee_shift w) (hourly_pay_rate w) (hours_worked w).
Definition pw_with_shift (v : PyVal) (w : ProductionWorker) :=
  mkProductionWorker (pw_employee w) v (hourly_pay_rate w) (hours_worked w).
Definition pw_with_rate (v : PyVal) (w : ProductionWorker) :=
  mkProductionWorker (pw_employee w) (employee_shift w) v (hours_worked w).
Definition pw_with_hour (v : PyVal) (w : ProductionWorker) :=
  mkProductionWorker (pw_employee w) (employee_shift w) (hourly_pay_rate w) v.

Definition validate_rate (rate : PyVal) : bool :=
  int_between MIN_HOURLY_PAY_RATE MAX_HOURLY_PAY_RATE rate.

Definition validate_hour (hour : PyVal) : bool :=
  int_between MIN_HOURS_WORKED MAX_HOURS_WORKED hour.

(** [@employee_shift.setter] of the worker:
    [if shift in Shift / elif type(shift) is int and 1 <= shift <= 3 / else] *)
Definition set_employee_shift (shift : PyVal) : Py ProductionWorker unit :=
  b <- call (in_Shift shift) ;;
  if b then modify (pw_with_shift shift)
  else if int_between 1 3 shift then
    m <- call (Shift_call (the_int shift)) ;;
    modify (pw_with_shift (VShift m))
  else modify (pw_with_shift (VShift PW_DEFAULT_SHIFT)).

(** [@hourly_pay_rate.setter] *)
Definition set_hourly_pay_rate (rate : PyVal) : Py ProductionWorker unit :=
  if validate_rate rate then modify (pw_with_rate rate)
  else modify (pw_with_rate (VInt DEFAULT_HOURLY_RAY_RATE)).

(** [@hours_worked.setter] *)
Definition set_hours_worked (hour : PyVal) : Py ProductionWorker unit :=
  if validate_hour hour then modify (pw_with_hour hour)
  else modify (pw_with_hour (VInt DEFAULT_HOURS_WORKED)).

(** [gross_pay(self, rate, hour)]: the product is only formed when both
    arguments passed the [int] test. *)
Definition gross_pay (rate hour : PyVal) : PyVal :=
  if validate_rate rate && validate_hour hour
  then VInt (the_int rate * the_int hour)
  else VInt 0.

(** [ProductionWorker.__init__]: the three attributes of the derived class,
    then [super().__init__(name, number)]. *)
Definition ProductionWorker_init (name number shift rate hour : PyVal)
  : Py ProductionWorker unit :=
  set_employee_shift shift ;;;
  set_hourly_pay_rate rate ;;;
  set_hours_worked hour ;;;
  inherited pw_employee pw_with_employee (Employee_init name number).

Definition ProductionWorker_blank : ProductionWorker :=
  mkProductionWorker Employee_blank VNone VNone VNone.

(** [ProductionWorker(name, number, shift, rate, hour)] *)
Definition ProductionWorker_new (name number shift rate hour : PyVal)
  : outcome ProductionWorker :=
  match ProductionWorker_init name number shift rate hour
          ProductionWorker_blank with
  | (Ret _, w) => Ret w
  | (Raise x, _) => Raise x
  end.

(** The calls a client can make on a worker after construction. *)
Inductive WorkerOp : Type :=
| WSetName (v : PyVal)
| WSetNum (v : PyVal)
| WSetShift (v : PyVal)
| WSetRate (v : PyVal)
| WSetHour (v : PyVal).

Definition worker_step (op : WorkerOp) : Py ProductionWorker unit :=
  match op with
  | WSetName v => inherited pw_employee pw_with_employee (set_employee_name v)
  | WSetNum v => inherited pw_employee pw_with_employee (set_employee_num v)
  | WSetShift v => set_employee_shift v
  | WSetRate v => set_hourly_pay_rate v
  | WSetHour v => set_hours_worked v
  end.

(** A client that goes on after an exception: the object keeps the state
    the failed call left. *)
Fixpoint worker_run (ops : list WorkerOp) (w : ProductionWorker)
  : ProductionWorker :=
  match ops with
  | [] => w
  | op :: rest => worker_run rest (snd (worker_step op w))
  end.

(** ** class ShiftSupervisor(Employee) *)

Definition DEFAULT_SALARY : Z := 50000.
Definition MIN_SALARY : Z := 50000.
Definition MAX_SALARY : Z := 200000.
Definition SUP_DEFAULT_SHIFT : Shift := DAY.
Definition DEFAULT_CAPACITY : Z := 10.
Definition DEFAULT_NUM_OF_WORKERS : Z := 0.
Definition BONUS_ADD_TO_SALARY : Z := 10000.
Definition WORKERS_REQUIRED : Z := 4.

(** [emp_array] is a numpy array of dtype object, read in flattened order:
    a slot is [None] or a worker.  [__salary] only ever receives an [int],
    [__shift] a member of [Shift], and [__num_worker] a number (a [bool] is
    kept by its integer value). *)
Record ShiftSupervisor : Type := mkShiftSupervisor {
  sup_employee : Employee;
  annual_salary : Z;
  supervisor_shift : Shift;
  emp_array : list (option ProductionWorker);
  number_of_workers : Z
}.

Definition sup_with_employee (e : Employee) (s : ShiftSupervisor) :=
  mkShiftSupervisor e (annual_salary s) (supervisor_shift s) (emp_array s)
                    (number_of_workers s).
Definition sup_with_salary (z : Z) (s : ShiftSupervisor) :=
  mkShiftSupervisor (sup_employee s) z (supervisor_shift s) (emp_array s)
                    (number_of_workers s).
Definition sup_with_shift (m : Shift) (s : ShiftSupervisor) :=
  mkShiftSupervisor (sup_employee s) (annual_salary s) m (emp_array s)
                    (number_of_workers s).
Definition sup_with_array (a : list (option ProductionWorker))
           (s : ShiftSupervisor) :=
  mkShiftSupervisor (sup_employee s) (annual_salary s) (supervisor_shift s) a
                    (number_of_workers s).
Definition sup_with_num_worker (z : Z) (s : ShiftSupervisor) :=
  mkShiftSupervisor (sup_employee s) (annual_salary s) (supervisor_shift s)
                    (emp_array s) z.

(** [type(salary) is int and MIN_SALARY <= salary <= MAX_SALARY] *)
Definition valid_salary (salary : PyVal) : bool :=
  int_between MIN_SALARY MAX_SALARY salary.

(** [valid_arr_capacity]: the capacity itself when it is a positive [int],
    the default capacity otherwise. *)
Definition valid_arr_capacity (emp_array : PyVal) : Z :=
  match emp_array with
  | VInt z => if 0 <? z then z else DEFAULT_CAPACITY
  | _ => DEFAULT_CAPACITY
  end.

(** [numpy.empty(shape=(1, n), dtype=ProductionWorker)]: [n] slots of an
    object array, all [None], unless [numpy] refuses the allocation. *)
Definition numpy_empty (n : Z) : outcome (list (option ProductionWorker)) :=
  match numpy_refuses n with
  | Some e => Raise e
  | None => Ret (repeat None (Z.to_nat n))
  end.

(** [arr.size] *)
Definition size (arr : list (option ProductionWorker)) : Z :=
  Z.of_nat (List.length arr).

(** [numpy.append(arr, obj)] without an axis: the flattened array with the
    object as a new last element. *)
Definition numpy_append (arr : list (option ProductionWorker))
           (w : ProductionWorker) : list (option ProductionWorker) :=
  arr ++ [Some w].

(** [numpy.delete(arr, 0)]: the array without its element of index 0 (the
    program only applies it to an array that [numpy_append] has just made
    non-empty). *)
Definition numpy_delete_0 (arr : list (option ProductionWorker))
  : list (option ProductionWorker) :=
  tl arr.

(** [@annual_salary.setter] *)
Definition set_annual_salary (salary : PyVal) : Py ShiftSupervisor unit :=
  if valid_salary salary then modify (sup_with_salary (the_int salary))
  else modify (sup_with_salary DEFAULT_SALARY).

(** [@supervisor_shift.setter]:
    [if type(shift) is Shift / elif type(shift) is int and 1 <= shift <= 3] *)
Definition set_supervisor_shift (shift : PyVal) : Py ShiftSupervisor unit :=
  match shift with
  | VShift m => modify (sup_with_shift m)
  | _ =>
    if int_between 1 3 shift then
      m <- call (Shift_call (the_int shift)) ;;
      modify (sup_with_shift m)
    else modify (sup_with_shift SUP_DEFAULT_SHIFT)
  end.

(** [@number_of_workers.setter]: [if num_worker <= 0], with no type test
    before the comparison. *)
Definition set_number_of_workers (num_worker : PyVal)
  : Py ShiftSupervisor unit :=
  b <- call (py_le_int num_worker 0) ;;
  if b then modify (sup_with_num_worker DEFAULT_NUM_OF_WORKERS)
  else modify (sup_with_num_worker (the_number num_worker)).

(** [worker_obj.employee_shift is self.supervisor_shift]: identity with a
    member of the enumeration, which only that member itself has. *)
Definition shift_valid (self : ShiftSupervisor) (worker_obj : ProductionWorker)
  : bool :=
  match employee_shift worker_obj with
  | VShift m => Shift_eqb m (supervisor_shift self)
  | _ => false
  end.

(** [add_to_array(self, production_worker)].  [IsFull] is raised inside a
    [try] whose only handler is [except ValueError]; [IsFull] derives from
    [Error(Exception)], so the handler does not apply and the exception
    reaches the caller. *)
Definition add_to_array (production_worker : ProductionWorker)
  : Py ShiftSupervisor unit :=
  self <- get ;;
  if negb (shift_valid self production_worker) then ret tt
  else if size (emp_array self) <=? number_of_workers self then raise IsFull
  else
    modify (fun s => sup_with_array
                       (numpy_append (emp_array s) production_worker) s) ;;;
    modify (fun s => sup_with_array (numpy_delete_0 (emp_array s)) s) ;;;
    n <- get ;;
    set_number_of_workers (VInt (number_of_workers n + 1)).

(** [bonus(self)]: the new salary is assigned through the salary setter. *)
Definition bonus : Py ShiftSupervisor bool :=
  self <- get ;;
  if WORKERS_REQUIRED <? number_of_workers self then
    set_annual_salary (VInt (annual_salary self + BONUS_ADD_TO_SALARY)) ;;;
    ret true
  else ret false.

(** [ShiftSupervisor.__init__(self, name, number, salary, shift, emp_array,
    num_worker)]; the defaults of the parameters are [DEFAULT_NAME],
    [DEFAULT_NUM], [DEFAULT_SALARY], [DEFAULT_SHIFT], [DEFAULT_CAPACITY] and
    [DEFAULT_NUM_OF_WORKERS]. *)
Definition ShiftSupervisor_init
           (name number salary shift emp_array num_worker : PyVal)
  : Py ShiftSupervisor unit :=
  set_annual_salary salary ;;;
  set_supervisor_shift shift ;;;
  arr <- call (numpy_empty (valid_arr_capacity emp_array)) ;;
  modify (sup_with_array arr) ;;;
  set_number_of_workers num_worker ;;;
  inherited sup_employee sup_with_employee (Employee_init name number).

Definition ShiftSupervisor_blank : ShiftSupervisor :=
  mkShiftSupervisor Employee_blank 0 DAY [] 0.

(** [ShiftSupervisor(name, number, salary, shift, emp_array, num_worker)] *)
Definition ShiftSupervisor_new
           (name number salary shift emp_array num_worker : PyVal)
  : outcome ShiftSupervisor :=
  match ShiftSupervisor_init name number salary shift emp_array num_worker
          ShiftSupervisor_blank with
  | (Ret _, s) => Ret s
  | (Raise x, _) => Raise x
  end.

(** The number of [ProductionWorker] entries the roster holds. *)
Definition held (arr : list (option ProductionWorker)) : Z :=
  Z.of_nat (List.length (filter (fun o => match o with Some _ => true
                                               | None => false end) arr)).

(** The calls a client can make on a supervisor after construction. *)
Inductive SupOp : Type :=
| SSetName (v : PyVal)
| SSetNum (v : PyVal)
| SSetSalary (v : PyVal)
| SSetShift (v : PyVal)
| SSetNumWorkers (v : PyVal)
| SAdd (w : ProductionWorker)
| SBonus.

Definition forget {S A} (c : Py S A) : Py S unit :=
  fun s => match c s with
           | (Ret _, s') => (Ret tt, s')
           | (Raise e, s') => (Raise e, s')
           end.

Definition sup_step (op : SupOp) : Py ShiftSupervisor unit :=
  match op with
  | SSetName v => inherited sup_employee sup_with_employee (set_employee_name v)
  | SSetNum v => inherited sup_employee sup_with_employee (set_employee_num v)
  | SSetSalary v => set_annual_salary v
  | SSetShift v => set_supervisor_shift v
  | SSetNumWorkers v => set_number_of_workers v
  | SAdd w => add_to_array w
  | SBonus => forget bonus
  end.

Fixpoint sup_run (ops : list SupOp) (s : ShiftSupervisor) : ShiftSupervisor :=
  match ops with
  | [] => s
  | op :: rest => sup_run rest (snd (sup_step op s))
  end.

(** Client code that leaves the worker count to [add_to_array]. *)
Definition sets_no_count (op : SupOp) : bool :=
  match op with
  | SSetNumWorkers _ => false
  | _ => true
  end.

End Hierarchy.

(** ** A character table and the objects of [main], for concrete runs *)

(** The ASCII digits; enough for the names used below. *)
Definition ascii_numeric (c : N) : bool := ((48 <=? c) && (c <=? 57))%N.

(** [v in Shift] on a value that is no member of [Shift], in the three
    generations of the [enum] module.  [VOther] is taken here as a hashable
    object that is no member of an enumeration and equals no [int]. *)
Definition contains_upto_37 (v : PyVal) : outcome bool := Ret false.

Definition contains_38_to_311 (v : PyVal) : outcome bool := Raise TypeError.

Definition contains_from_312 (v : PyVal) : outcome bool :=
  match as_number v with
  | Some z => Ret ((1 <=? z) && (z <=? 3))
  | None => Ret false
  end.

(** A machine with memory for a roster of up to a million slots: [numpy]
    refuses 2^60 slots and more (the 8-byte slots then exceed its largest
    array size) with [ValueError], and the allocation of the sizes in
    between fails with [MemoryError]. *)
Definition numpy_refuses_example (n : Z) : option PyExc :=
  if n <=? 1000000 then None
  else if n <? 2 ^ 60 then Some MemoryError
  else Some ValueError.

Definition py (s : string) : PyVal := VStr (codepoints s).

Definition the_worker (o : outcome ProductionWorker) : ProductionWorker :=
  match o with
  | Ret w => w
  | Raise _ => ProductionWorker_blank
  end.

Definition the_supervisor (o : outcome ShiftSupervisor) : ShiftSupervisor :=
  match o with
  | Ret s => s
  | Raise _ => ShiftSupervisor_blank
  end.

Definition worker1 : ProductionWorker :=
  the_worker (ProductionWorker_new ascii_numeric contains_38_to_311 (py "Marco Joseph")
                (VInt 1340) (VShift NIGHT) (VInt 20) (VInt 10)).
Definition worker2 : ProductionWorker :=
  the_worker (ProductionWorker_new ascii_numeric contains_38_to_311 (py "Roselle Lambert")
                (VInt 6456) (VShift NIGHT) (VInt 13) (VInt 35)).
Definition worker3 : ProductionWorker :=
  the_worker (ProductionWorker_new ascii_numeric contains_38_to_311 (py "Helen Arbeny")
                (VInt 7566) (VShift NIGHT) (VInt 11) (VInt 22)).
Definition worker4 : ProductionWorker :=
  the_worker (ProductionWorker_new ascii_numeric contains_38_to_311 (py "Vickie Mclaughlin")
                (VInt 5854) (VShift DAY) (VInt 20) (VInt 25)).
Definition worker5 : ProductionWorker :=
  the_worker (ProductionWorker_new ascii_numeric contains_38_to_311 (py "Maryrose Hoffman")
                (VInt 2131) (VShift DAY) (VInt 30) (VInt 10)).
Definition worker6 : ProductionWorker :=
  the_worker (ProductionWorker_new ascii_numeric contains_38_to_311 (py "Gertrude Glass")
                (VInt 1000) (VShift DAY) (VInt 18) (VInt 23)).
Definition worker7 : ProductionWorker :=
  the_worker (ProductionWorker_new ascii_numeric contains_38_to_311 (py "Ines Huynh")
                (VInt 5456) (VShift DAY) (VInt 40) (VInt 28)).
Definition worker8 : ProductionWorker :=
  the_worker (ProductionWorker_new ascii_numeric contains_38_to_311 (py "Sharyl Nielsen")
                (VInt 1915) (VShift DAY) (VInt 21) (VInt 33)).

Definition supervisor1 : ShiftSupervisor :=
  the_supervisor (ShiftSupervisor_new ascii_numeric numpy_refuses_example (py "Zach Mccall")
                    (VInt 2566) (VInt 68590) (VShift NIGHT) (VInt 3)
                    (VInt 0)).
Definition supervisor2 : ShiftSupervisor :=
  the_supervisor (ShiftSupervisor_new ascii_numeric numpy_refuses_example (py "Helena Navarro")
                    (VInt 6456) (VInt 71690) (VShift DAY) (VInt 5)
                    (VInt 0)).

(** A supervisor of the DAY shift at salary 195000 with room for five
    workers, and the same supervisor after the five DAY workers of [main]
    have been added. *)
Definition supervisor_195000 : ShiftSupervisor :=
  the_supervisor (ShiftSupervisor_new ascii_numeric numpy_refuses_example (py "Helena Navarro")
                    (VInt 6456) (VInt 195000) (VShift DAY) (VInt 5)
                    (VInt 0)).
Definition supervisor_195000_staffed : ShiftSupervisor :=
  sup_run ascii_numeric
          [SAdd worker4; SAdd worker5; SAdd worker6; SAdd worker7;
           SAdd worker8] supervisor_195000.

(** [supervisor1] (NIGHT, capacity 3) after the three NIGHT workers. *)
Definition supervisor1_full : ShiftSupervisor :=
  sup_run ascii_numeric [SAdd worker1; SAdd worker2; SAdd worker3]
          supervisor1.

(** ** Client code *)

(** Several [add_to_array] calls in one [try] block, as in [main]: the
    first exception ends the block. *)
Fixpoint add_all (ws : list ProductionWorker) : Py ShiftSupervisor unit :=
  match ws with
  | [] => ret tt
  | w :: rest => add_to_array w ;;; add_all rest
  end.

(** [supervisor1_full] after a client has set its worker count to 0. *)
Definition supervisor1_recount : ShiftSupervisor :=
  snd (set_number_of_workers (VInt 0) supervisor1_full).

(** ** Predicates of the specification *)

(** The workers in the slots of the roster, in slot order. *)
Fixpoint workers_held (arr : list (option ProductionWorker))
  : list ProductionWorker :=
  match arr with
  | [] => []
  | Some w :: rest => w :: workers_held rest
  | None :: rest => workers_held rest
  end.

(** The inherited fields are well formed: the id lies in [1000, 99999] and
    the name is the placeholder or a string that is not purely numeric. *)
Definition employee_valid (isnum : N -> bool) (e : Employee) : Prop :=
  1000 <= employee_num e <= 99999
  /\ (employee_name e = DEFAULT_NAME \/ isnumeric isnum (employee_name e) = false).

(** The stored pay fields of a worker are well formed: an [int] rate in
    [0, 20] and an [int] number of hours in [0, 40]. *)
Definition worker_pay_valid (w : ProductionWorker) : Prop :=
  exists r h,
    hourly_pay_rate w = VInt r /\ 0 <= r <= 20
    /\ hours_worked w = VInt h /\ 0 <= h <= 40.

(** The roster is a block of empty slots followed by the workers added so
    far, and the worker count exceeds the number of these workers by the
    non-negative number [n0]. *)
Definition roster_shape (n0 : Z) (s : ShiftSupervisor) : Prop :=
  exists k ws,
    emp_array s = repeat None k ++ map Some ws
    /\ number_of_workers s = n0 + Z.of_nat (List.length ws)
    /\ 0 <= n0.

(** * Properties *)

(** ** Unfolding the computations *)

Ltac run_py :=
  unfold bind, modify, call, ret, raise, get, inherited, forget in *;
  cbn [fst snd] in *.

(** ** Validators *)

Lemma int_between_true (lo hi : Z) (v : PyVal) :
  int_between lo hi v = true <-> exists z, v = VInt z /\ lo <= z <= hi.
Proof.
  split.
  - destruct v; cbn; try discriminate.
    intros H. apply andb_true_iff in H. destruct H as [H1 H2].
    exists z. split; [reflexivity | lia].
  - intros [z [-> Hz]]. cbn. apply andb_true_iff. split; lia.
Qed.

Lemma int_between_false (lo hi : Z) (v : PyVal) :
  int_between lo hi v = false <-> ~ exists z, v = VInt z /\ lo <= z <= hi.
Proof.
  rewrite <- int_between_true.
  destruct (int_between lo hi v); intuition congruence.
Qed.

Lemma Shift_call_value (z : Z) :
  1 <= z <= 3 -> exists m, Shift_call z = Ret m /\ Shift_value m = z.
Proof.
  intros Hz. unfold Shift_call.
  destruct (Z.eqb_spec z 1) as [-> | H1]; [exists DAY; auto |].
  destruct (Z.eqb_spec z 2) as [-> | H2]; [exists SWING; auto |].
  destruct (Z.eqb_spec z 3) as [-> | H3]; [exists NIGHT; auto |].
  lia.
Qed.

Lemma Shift_eqb_eq (a b : Shift) : Shift_eqb a b = true <-> a = b.
Proof. destruct a, b; cbn; split; intros H; congruence. Qed.

(** ** Employee *)

(** The id setter on an [int]: the stored id is the validated one, the flag
    is computed from the argument. *)
Lemma set_employee_num_int (id : Z) (e : Employee) :
  set_employee_num (VInt id) e =
  (Ret tt,
   mkEmployee (employee_name e)
              (if (1000 <=? id) && (id <=? 99999) then id else 1234)
              (id <? 5000)).
Proof.
  unfold set_employee_num, validate_id, determine_benefits, py_lt_int.
  run_py. cbn.
  unfold MIN_EMPLY_NUM, MAX_EMPLY_NUM, BENEFIT_ID, DEFAULT_NUM.
  destruct ((1000 <=? id) && (id <=? 99999)); destruct (id <? 5000);
    reflexivity.
Qed.

(** The flag agrees with the stored id exactly for the ids up to 99999. *)
Lemma set_employee_num_flag_agrees (id : Z) (e : Employee) :
  let e' := snd (set_employee_num (VInt id) e) in
  get_determine_benefits e' = (employee_num e' <? 5000) <-> id <= 99999.
Proof.
  rewrite set_employee_num_int. cbn [snd employee_num get_determine_benefits].
  destruct (Z.leb_spec 1000 id) as [A | A];
    destruct (Z.leb_spec id 99999) as [B | B]; cbn [andb];
    change (1234 <? 5000) with true;
    destruct (Z.ltb_spec id 5000) as [C | C];
    split; intros H; try reflexivity; try discriminate; lia.
Qed.

(** C1.  The id setter called with the integer 100000, which is out of
    range: it returns normally, the stored id is the default 1234, and the
    benefits flag is [False] (computed as 100000 < 5000), although the
    stored id is below 5000. *)
Theorem set_employee_num_100000 (e : Employee) :
  set_employee_num (VInt 100000) e =
    (Ret tt, mkEmployee (employee_name e) 1234 false)
  /\ (1234 <? BENEFIT_ID) = true.
Proof. rewrite set_employee_num_int. split; reflexivity. Qed.

(** The id setter raises exactly on the values that are no numbers; the
    default id is stored before the exception leaves the setter. *)
Lemma set_employee_num_raises (v : PyVal) (e : Employee) :
  as_number v = None ->
  set_employee_num v e = (Raise TypeError, with_number DEFAULT_NUM e).
Proof.
  intros Hv. unfold set_employee_num, determine_benefits, py_lt_int.
  rewrite Hv. run_py.
  destruct v; cbn in Hv; try discriminate; reflexivity.
Qed.

(** C9.  The id setter called with the string "abc" raises [TypeError]
    (after storing the default id) instead of falling back silently. *)
Theorem set_employee_num_str_raises (e : Employee) :
  set_employee_num (py "abc") e
  = (Raise TypeError, with_number DEFAULT_NUM e).
Proof. apply set_employee_num_raises. reflexivity. Qed.

(** [isnumeric] in words: a non-empty string of numeric characters. *)
Lemma isnumeric_true (isnum : N -> bool) (s : str) :
  isnumeric isnum s = true <-> s <> [] /\ Forall (fun c => isnum c = true) s.
Proof.
  destruct s as [| c s]; cbn [isnumeric].
  - split; [discriminate | intros [H _]; congruence].
  - rewrite forallb_forall, Forall_forall. split.
    + intros H. split; [discriminate | exact H].
    + intros [_ H]. exact H.
Qed.

(** The values the name validator accepts. *)
Lemma validate_name_true (isnum : N -> bool) (v : PyVal) :
  validate_name isnum v = true <->
  exists s, v = VStr s /\ isnumeric isnum s = false.
Proof.
  split.
  - destruct v; cbn; try discriminate.
    intros H. exists s. split; [reflexivity |].
    now apply negb_true_iff.
  - intros [s [-> H]]. cbn. now rewrite H.
Qed.

(** C3 (amended).  The name setter never raises.  It stores the argument
    when the argument is a string that is not purely numeric, and the
    default placeholder in every other case (a purely numeric string, a
    value that is no string).  The empty string is not purely numeric: it is
    stored as it is. *)
Theorem set_employee_name_spec (isnum : N -> bool) (name : PyVal)
        (e : Employee) :
  (forall s, name = VStr s -> isnumeric isnum s = false ->
             set_employee_name isnum name e = (Ret tt, with_name s e))
  /\ (forall s, name = VStr s -> isnumeric isnum s = true ->
                set_employee_name isnum name e
                = (Ret tt, with_name DEFAULT_NAME e))
  /\ ((forall s, name <> VStr s) ->
      set_employee_name isnum name e = (Ret tt, with_name DEFAULT_NAME e))
  /\ set_employee_name isnum (VStr []) e = (Ret tt, with_name [] e).
Proof.
  unfold set_employee_name, validate_name. run_py.
  repeat split.
  - intros s -> H. rewrite H. reflexivity.
  - intros s -> H. rewrite H. reflexivity.
  - intros H. destruct name; try reflexivity.
    exfalso. apply (H s). reflexivity.
Qed.

Lemma set_employee_name_spec_witness :
  set_employee_name ascii_numeric (py "Marco Joseph") Employee_blank
  = (Ret tt, with_name (codepoints "Marco Joseph") Employee_blank)
  /\ set_employee_name ascii_numeric (py "1340") Employee_blank
     = (Ret tt, with_name DEFAULT_NAME Employee_blank)
  /\ set_employee_name ascii_numeric (VInt 1340) Employee_blank
     = (Ret tt, with_name DEFAULT_NAME Employee_blank).
Proof.
  split; [| split].
  - apply (proj1 (set_employee_name_spec ascii_numeric (py "Marco Joseph")
                    Employee_blank) (codepoints "Marco Joseph"));
      reflexivity.
  - apply (proj1 (proj2 (set_employee_name_spec ascii_numeric (py "1340")
                           Employee_blank)) (codepoints "1340"));
      reflexivity.
  - apply (proj1 (proj2 (proj2 (set_employee_name_spec ascii_numeric
                                  (VInt 1340) Employee_blank)))).
    intros s. discriminate.
Defined.

(** C3 as stated fails on the empty string: the stored name is the empty
    string, not the default placeholder. *)
Lemma set_employee_name_empty_not_default :
  employee_name
    (snd (set_employee_name ascii_numeric (py "") Employee_blank))
  <> DEFAULT_NAME.
Proof. cbv. discriminate. Qed.

(** ** ProductionWorker *)

(** C7.  [gross_pay] on arbitrary arguments: the product when the rate is
    an [int] in [0, 20] and the hours are an [int] in [0, 40]; 0 as soon as
    one of the two is not. *)
Theorem gross_pay_spec (rate hour : PyVal) :
  (forall r h, rate = VInt r -> hour = VInt h ->
               0 <= r <= 20 -> 0 <= h <= 40 ->
               gross_pay rate hour = VInt (r * h))
  /\ ((~ exists r, rate = VInt r /\ 0 <= r <= 20)
      \/ (~ exists h, hour = VInt h /\ 0 <= h <= 40) ->
      gross_pay rate hour = VInt 0).
Proof.
  unfold gross_pay, validate_rate, validate_hour,
    MIN_HOURLY_PAY_RATE, MAX_HOURLY_PAY_RATE,
    MIN_HOURS_WORKED, MAX_HOURS_WORKED.
  split.
  - intros r h -> -> Hr Hh.
    assert (Er : int_between 0 20 (VInt r) = true)
      by (apply int_between_true; eauto).
    assert (Eh : int_between 0 40 (VInt h) = true)
      by (apply int_between_true; eauto).
    rewrite Er, Eh. reflexivity.
  - intros [H | H]; apply int_between_false in H; rewrite H.
    + reflexivity.
    + rewrite andb_false_r. reflexivity.
Qed.

Lemma gross_pay_spec_witness :
  gross_pay (VInt 13) (VInt 35) = VInt (13 * 35)
  /\ gross_pay (VInt 30) (VInt 10) = VInt 0
  /\ gross_pay (VInt 20) (VBool true) = VInt 0.
Proof.
  split; [| split].
  - apply (proj1 (gross_pay_spec (VInt 13) (VInt 35)) 13 35);
      try reflexivity; lia.
  - apply (proj2 (gross_pay_spec (VInt 30) (VInt 10))).
    left. intros [r [E Hr]]. injection E as <-. lia.
  - apply (proj2 (gross_pay_spec (VInt 20) (VBool true))).
    right. intros [h [E _]]. discriminate.
Defined.

(** *** The shift setter of the worker *)

(** The three ways through the setter, by the answer of [shift in Shift]:
    an exception leaves the worker as it was; [True] stores the argument
    itself; [False] stores the member whose value is the argument for an
    [int] from 1 to 3 and DAY otherwise. *)
Lemma set_employee_shift_cases (contains : PyVal -> outcome bool)
      (shift : PyVal) (w : ProductionWorker) :
  match in_Shift contains shift with
  | Raise e => set_employee_shift contains shift w = (Raise e, w)
  | Ret true =>
    set_employee_shift contains shift w = (Ret tt, pw_with_shift shift w)
  | Ret false =>
    exists m,
      set_employee_shift contains shift w
      = (Ret tt, pw_with_shift (VShift m) w)
      /\ (forall z, shift = VInt z -> 1 <= z <= 3 -> Shift_value m = z)
      /\ ((forall z, shift = VInt z -> ~ 1 <= z <= 3) -> m = DAY)
  end.
Proof.
  unfold set_employee_shift. run_py.
  destruct (in_Shift contains shift) as [[|] | e]; try reflexivity.
  destruct (int_between 1 3 shift) eqn:E.
  - apply int_between_true in E. destruct E as [z [-> Hz]].
    destruct (Shift_call_value z Hz) as [m [Hm Hv]].
    exists m. cbn [the_int]. rewrite Hm.
    split; [reflexivity |]. split.
    + intros z' E _. injection E as <-. exact Hv.
    + intros H. exfalso. apply (H z); [reflexivity | exact Hz].
  - exists DAY. split; [reflexivity |]. split; [| reflexivity].
    intros z -> Hz. exfalso. apply int_between_false in E. apply E.
    exists z. auto.
Qed.

(** A member of [Shift] is stored as it is, on every interpreter. *)
Lemma set_employee_shift_member (contains : PyVal -> outcome bool)
      (m : Shift) (w : ProductionWorker) :
  set_employee_shift contains (VShift m) w
  = (Ret tt, pw_with_shift (VShift m) w).
Proof. reflexivity. Qed.

(** The setter writes the shift and nothing else. *)
Lemma set_employee_shift_frame (contains : PyVal -> outcome bool)
      (shift : PyVal) (w : ProductionWorker) :
  let w' := snd (set_employee_shift contains shift w) in
  pw_employee w' = pw_employee w
  /\ hourly_pay_rate w' = hourly_pay_rate w
  /\ hours_worked w' = hours_worked w.
Proof.
  pose proof (set_employee_shift_cases contains shift w) as H.
  destruct (in_Shift contains shift) as [[|] | e].
  - rewrite H. cbn. auto.
  - destruct H as [m [H _]]. rewrite H. cbn. auto.
  - rewrite H. cbn. auto.
Qed.

(** When [shift in Shift] never answers [True] for a value that is no
    member (Python up to 3.11), the setter stores a member or raises
    without storing anything. *)
Lemma set_employee_shift_strict (contains : PyVal -> outcome bool)
      (shift : PyVal) (w : ProductionWorker) :
  (forall v, contains v <> Ret true) ->
  (exists m, set_employee_shift contains shift w
             = (Ret tt, pw_with_shift (VShift m) w))
  \/ (exists e, set_employee_shift contains shift w = (Raise e, w)).
Proof.
  intros Hstrict.
  pose proof (set_employee_shift_cases contains shift w) as H.
  destruct (in_Shift contains shift) as [[|] | e] eqn:E.
  - destruct shift; try (exfalso; apply (Hstrict _ E)).
    left. exists m. exact H.
  - destruct H as [m [H _]]. left. exists m. exact H.
  - right. exists e. exact H.
Qed.

(** C8.  The worker's shift setter called with an [int]: where
    [shift in Shift] raises for a value that is no enumeration member
    (Python 3.8 to 3.11) the calls with 7 and with 3 raise [TypeError] and
    store nothing; where it accepts the values of the members (Python
    3.12) the call with 3 stores the [int] 3, not the member NIGHT. *)
Theorem set_employee_shift_int (w : ProductionWorker) :
  set_employee_shift contains_38_to_311 (VInt 7) w = (Raise TypeError, w)
  /\ set_employee_shift contains_38_to_311 (VInt 3) w = (Raise TypeError, w)
  /\ set_employee_shift contains_from_312 (VInt 3) w
     = (Ret tt, pw_with_shift (VInt 3) w).
Proof. repeat split. Qed.

(** *** The stored fields of a worker *)

Lemma set_hourly_pay_rate_range (rate : PyVal) (w : ProductionWorker) :
  exists r, set_hourly_pay_rate rate w = (Ret tt, pw_with_rate (VInt r) w)
            /\ 0 <= r <= 20.
Proof.
  unfold set_hourly_pay_rate, validate_rate.
  destruct (int_between _ _ rate) eqn:E.
  - apply int_between_true in E. destruct E as [r [-> Hr]].
    exists r. split; [reflexivity | exact Hr].
  - exists DEFAULT_HOURLY_RAY_RATE. split; [reflexivity |].
    unfold DEFAULT_HOURLY_RAY_RATE. lia.
Qed.

Lemma set_hours_worked_range (hour : PyVal) (w : ProductionWorker) :
  exists h, set_hours_worked hour w = (Ret tt, pw_with_hour (VInt h) w)
            /\ 0 <= h <= 40.
Proof.
  unfold set_hours_worked, validate_hour.
  destruct (int_between _ _ hour) eqn:E.
  - apply int_between_true in E. destruct E as [h [-> Hh]].
    exists h. split; [reflexivity | exact Hh].
  - exists DEFAULT_HOURS_WORKED. split; [reflexivity |].
    unfold DEFAULT_HOURS_WORKED. lia.
Qed.

(** A method of [Employee] leaves the fields of the derived class alone,
    whether it returns or raises. *)
Lemma inherited_worker_fields {A} (c : Py Employee A) (w : ProductionWorker) :
  let w' := snd (inherited pw_employee pw_with_employee c w) in
  employee_shift w' = employee_shift w
  /\ hourly_pay_rate w' = hourly_pay_rate w
  /\ hours_worked w' = hours_worked w.
Proof.
  unfold inherited. destruct (c (pw_employee w)) as [o e]. cbn. auto.
Qed.

(** What the constructor leaves when it returns: the shift the shift
    setter stored, the validated rate and hours, and the inherited fields
    as [Employee.__init__] set them. *)
Lemma ProductionWorker_new_fields (isnum : N -> bool)
      (contains : PyVal -> outcome bool)
      (name number shift rate hour : PyVal) (w : ProductionWorker) :
  ProductionWorker_new isnum contains name number shift rate hour = Ret w ->
  fst (set_employee_shift contains shift ProductionWorker_blank) = Ret tt
  /\ employee_shift w
     = employee_shift
         (snd (set_employee_shift contains shift ProductionWorker_blank))
  /\ hourly_pay_rate w
     = (if validate_rate rate then rate else VInt DEFAULT_HOURLY_RAY_RATE)
  /\ hours_worked w
     = (if validate_hour hour then hour else VInt DEFAULT_HOURS_WORKED)
  /\ pw_employee w
     = snd (Employee_init isnum name number Employee_blank).
Proof.
  unfold ProductionWorker_new, ProductionWorker_init. run_py.
  destruct (set_employee_shift_frame contains shift ProductionWorker_blank)
    as (F1 & _ & _).
  destruct (set_employee_shift contains shift ProductionWorker_blank)
    as [[[] | e] w1]; [| discriminate].
  cbn [fst snd] in *.
  unfold set_hourly_pay_rate, set_hours_worked. run_py.
  destruct (validate_rate rate); destruct (validate_hour hour);
    cbn [pw_employee pw_with_hour pw_with_rate]; rewrite F1;
    cbn [pw_employee ProductionWorker_blank];
    destruct (Employee_init isnum name number Employee_blank)
      as [[u | x] e];
    intros H; try discriminate; injection H as <-; cbn; auto.
Qed.

(** The rate and the hours stay valid on every interpreter. *)
Lemma worker_step_pay_valid (isnum : N -> bool)
      (contains : PyVal -> outcome bool) (op : WorkerOp)
      (w : ProductionWorker) :
  worker_pay_valid w ->
  worker_pay_valid (snd (worker_step isnum contains op w)).
Proof.
  intros (r & h & Hr & Br & Hh & Bh).
  destruct op as [v | v | v | v | v]; cbn [worker_step].
  - destruct (inherited_worker_fields (set_employee_name isnum v) w)
      as (_ & E2 & E3).
    exists r, h. rewrite E2, E3. auto.
  - destruct (inherited_worker_fields (set_employee_num v) w)
      as (_ & E2 & E3).
    exists r, h. rewrite E2, E3. auto.
  - destruct (set_employee_shift_frame contains v w) as (_ & E2 & E3).
    exists r, h. rewrite E2, E3. auto.
  - destruct (set_hourly_pay_rate_range v w) as [r' [E Br']]. rewrite E.
    exists r', h. cbn. auto.
  - destruct (set_hours_worked_range v w) as [h' [E Bh']]. rewrite E.
    exists r, h'. cbn. auto.
Qed.

Lemma gross_pay_valid_fields (w : ProductionWorker) :
  worker_pay_valid w ->
  validate_rate (hourly_pay_rate w) && validate_hour (hours_worked w) = true
  /\ gross_pay (hourly_pay_rate w) (hours_worked w)
     = VInt (the_int (hourly_pay_rate w) * the_int (hours_worked w)).
Proof.
  intros (r & h & Hr & Br & Hh & Bh).
  assert (Er : validate_rate (hourly_pay_rate w) = true)
    by (apply int_between_true; exists r; auto).
  assert (Eh : validate_hour (hours_worked w) = true)
    by (apply int_between_true; exists h; auto).
  unfold gross_pay. rewrite Er, Eh. auto.
Qed.

(** On every interpreter: a worker that the constructor has returned,
    after any sequence of setter calls (failed ones included), has an
    [int] rate in [0, 20] and [int] hours in [0, 40]; both validations of
    [gross_pay] succeed on the stored fields and its result is their
    product. *)
Lemma worker_pay_invariant (isnum : N -> bool)
      (contains : PyVal -> outcome bool)
      (name number shift rate hour : PyVal) (w : ProductionWorker)
      (ops : list WorkerOp) :
  ProductionWorker_new isnum contains name number shift rate hour = Ret w ->
  let w' := worker_run isnum contains ops w in
  exists r h,
    hourly_pay_rate w' = VInt r /\ 0 <= r <= 20
    /\ hours_worked w' = VInt h /\ 0 <= h <= 40
    /\ validate_rate (hourly_pay_rate w') && validate_hour (hours_worked w')
       = true
    /\ gross_pay (hourly_pay_rate w') (hours_worked w') = VInt (r * h).
Proof.
  intros Hnew w'.
  assert (H0 : worker_pay_valid w).
  { destruct (ProductionWorker_new_fields _ _ _ _ _ _ _ _ Hnew)
      as (_ & _ & Er & Eh & _).
    unfold worker_pay_valid. rewrite Er, Eh.
    destruct (validate_rate rate) eqn:Vr; destruct (validate_hour hour) eqn:Vh;
      try (apply int_between_true in Vr; destruct Vr as [r [-> Br]]);
      try (apply int_between_true in Vh; destruct Vh as [h [-> Bh]]);
      unfold MIN_HOURLY_PAY_RATE, MAX_HOURLY_PAY_RATE, MIN_HOURS_WORKED,
        MAX_HOURS_WORKED, DEFAULT_HOURLY_RAY_RATE, DEFAULT_HOURS_WORKED in *;
      eexists; eexists; repeat split; try reflexivity; lia. }
  assert (Hv : worker_pay_valid w').
  { clear Hnew. subst w'. revert w H0.
    induction ops as [| op ops IH]; intros w H0; cbn [worker_run].
    - exact H0.
    - apply IH. apply worker_step_pay_valid. exact H0. }
  destruct (gross_pay_valid_fields w' Hv) as [Hb Hg].
  destruct Hv as (r & h & Hr & Br & Hh & Bh).
  exists r, h.
  rewrite Hg. rewrite Hr, Hh in *. cbn [the_int].
  repeat split; try assumption; try reflexivity; lia.
Qed.

(** Where [shift in Shift] never answers [True] for a value that is no
    member (Python up to 3.11), the stored shift of a constructed worker
    is a member of [Shift] after any sequence of setter calls. *)
Lemma worker_shift_invariant_strict (isnum : N -> bool)
      (contains : PyVal -> outcome bool)
      (name number shift rate hour : PyVal) (w : ProductionWorker)
      (ops : list WorkerOp) :
  (forall v, contains v <> Ret true) ->
  ProductionWorker_new isnum contains name number shift rate hour = Ret w ->
  exists m, employee_shift (worker_run isnum contains ops w) = VShift m.
Proof.
  intros Hstrict Hnew.
  assert (H0 : exists m, employee_shift w = VShift m).
  { destruct (ProductionWorker_new_fields _ _ _ _ _ _ _ _ Hnew)
      as (Hret & Es & _).
    destruct (set_employee_shift_strict contains shift
                ProductionWorker_blank Hstrict) as [[m E] | [e E]];
      rewrite E in *; [| discriminate].
    exists m. exact Es. }
  clear Hnew. revert w H0.
  induction ops as [| op ops IH]; intros w [m Hm]; cbn [worker_run].
  - exists m. exact Hm.
  - apply IH. destruct op as [v | v | v | v | v]; cbn [worker_step].
    + destruct (inherited_worker_fields (set_employee_name isnum v) w)
        as (E1 & _). exists m. rewrite E1. exact Hm.
    + destruct (inherited_worker_fields (set_employee_num v) w)
        as (E1 & _). exists m. rewrite E1. exact Hm.
    + destruct (set_employee_shift_strict contains v w Hstrict)
        as [[m' E] | [e E]]; rewrite E; cbn; eauto.
    + destruct (set_hourly_pay_rate_range v w) as [r' [E _]]. rewrite E.
      exists m. exact Hm.
    + destruct (set_hours_worked_range v w) as [h' [E _]]. rewrite E.
      exists m. exact Hm.
Qed.

(** C10.  Where [shift in Shift] accepts the values of the members (Python
    3.12), the constructor called with the [int] 2 as shift returns a
    worker whose stored shift is the [int] 2, and the shift setter called
    with 3 on a constructed worker stores the [int] 3: the stored shift is
    no member of [Shift]. *)
Theorem worker_shift_raw_int :
  ProductionWorker_new ascii_numeric contains_from_312 (py "Ann")
                       (VInt 1000) (VInt 2) (VInt 10) (VInt 10)
  = Ret (mkProductionWorker (mkEmployee (codepoints "Ann") 1000 true)
                            (VInt 2) (VInt 10) (VInt 10))
  /\ employee_shift
       (worker_run ascii_numeric contains_from_312 [WSetShift (VInt 3)]
                   worker1)
     = VInt 3
  /\ forall z m, VInt z <> VShift m.
Proof. repeat split. discriminate. Qed.

(** ** ShiftSupervisor *)

Lemma shift_valid_true (s : ShiftSupervisor) (w : ProductionWorker) :
  shift_valid s w = true <-> employee_shift w = VShift (supervisor_shift s).
Proof.
  unfold shift_valid. destruct (employee_shift w); split; intros H;
    try discriminate.
  - apply Shift_eqb_eq in H. congruence.
  - injection H as ->. now apply Shift_eqb_eq.
Qed.

Lemma set_number_of_workers_int (z : Z) (s : ShiftSupervisor) :
  set_number_of_workers (VInt z) s
  = (Ret tt, sup_with_num_worker (if z <=? 0 then 0 else z) s).
Proof.
  unfold set_number_of_workers, py_le_int. run_py. cbn.
  destruct (z <=? 0); reflexivity.
Qed.

(** The three ways through [add_to_array]. *)
Lemma add_to_array_cases (w : ProductionWorker) (s : ShiftSupervisor) :
  add_to_array w s =
  if negb (shift_valid s w) then (Ret tt, s)
  else if size (emp_array s) <=? number_of_workers s then (Raise IsFull, s)
  else (Ret tt,
        sup_with_num_worker
          (if number_of_workers s + 1 <=? 0 then 0
           else number_of_workers s + 1)
          (sup_with_array (tl (emp_array s ++ [Some w])) s)).
Proof.
  unfold add_to_array. run_py.
  destruct (negb (shift_valid s w)); [reflexivity |].
  destruct (size (emp_array s) <=? number_of_workers s); [reflexivity |].
  rewrite set_number_of_workers_int. reflexivity.
Qed.

(** On a supervisor whose worker count has reached the size of the
    roster, [add_to_array] with a worker of the supervisor's shift raises
    [IsFull] to the caller and leaves the supervisor as it was. *)
Lemma add_to_array_full (s : ShiftSupervisor) (w : ProductionWorker) :
  employee_shift w = VShift (supervisor_shift s) ->
  size (emp_array s) <= number_of_workers s ->
  add_to_array w s = (Raise IsFull, s).
Proof.
  intros Hs Hfull. rewrite add_to_array_cases.
  apply shift_valid_true in Hs. rewrite Hs. cbn [negb].
  destruct (Z.leb_spec (size (emp_array s)) (number_of_workers s));
    [reflexivity | lia].
Qed.

(** C6.  [add_to_array] with a worker of another shift returns normally
    and leaves the supervisor, roster and worker count included, as it
    was. *)
Theorem add_to_array_other_shift (s : ShiftSupervisor)
        (w : ProductionWorker) :
  employee_shift w <> VShift (supervisor_shift s) ->
  add_to_array w s = (Ret tt, s).
Proof.
  intros Hs. rewrite add_to_array_cases.
  destruct (shift_valid s w) eqn:E; [| reflexivity].
  apply shift_valid_true in E. contradiction.
Qed.

Lemma add_to_array_other_shift_witness :
  add_to_array worker4 supervisor1 = (Ret tt, supervisor1).
Proof.
  apply add_to_array_other_shift. vm_compute. discriminate.
Defined.

(** *** The bonus *)

Lemma set_annual_salary_int (z : Z) (s : ShiftSupervisor) :
  set_annual_salary (VInt z) s
  = (Ret tt,
     sup_with_salary (if (50000 <=? z) && (z <=? 200000) then z
                      else DEFAULT_SALARY) s).
Proof.
  unfold set_annual_salary, valid_salary, int_between, MIN_SALARY, MAX_SALARY.
  destruct ((50000 <=? z) && (z <=? 200000)); reflexivity.
Qed.

(** C2 (amended).  [bonus] never raises and returns [True] exactly when
    the worker count exceeds 4.  A call that returns [True] assigns
    salary + 10000 through the salary setter: the salary grows by exactly
    10000 when the sum lies in [50000, 200000], and becomes the default
    50000 when it does not.  A call that returns [False] changes
    nothing. *)
Theorem bonus_spec (s s' : ShiftSupervisor) (r : outcome bool) :
  bonus s = (r, s') ->
  (r = Ret true /\ 4 < number_of_workers s
   \/ r = Ret false /\ number_of_workers s <= 4)
  /\ (r = Ret true -> 50000 <= annual_salary s + 10000 <= 200000 ->
      s' = sup_with_salary (annual_salary s + 10000) s)
  /\ (r = Ret true -> ~ 50000 <= annual_salary s + 10000 <= 200000 ->
      s' = sup_with_salary DEFAULT_SALARY s)
  /\ (r = Ret false -> s' = s).
Proof.
  unfold bonus, WORKERS_REQUIRED, BONUS_ADD_TO_SALARY. run_py.
  destruct (Z.ltb_spec 4 (number_of_workers s)) as [Hc | Hc].
  - rewrite set_annual_salary_int. intros H. injection H as <- <-.
    split; [left; auto |]. split; [| split].
    + intros _ Hr.
      destruct (Z.leb_spec 50000 (annual_salary s + 10000));
        destruct (Z.leb_spec (annual_salary s + 10000) 200000);
        cbn [andb]; try reflexivity; lia.
    + intros _ Hr.
      destruct (Z.leb_spec 50000 (annual_salary s + 10000));
        destruct (Z.leb_spec (annual_salary s + 10000) 200000);
        cbn [andb]; try reflexivity; lia.
    + discriminate.
  - intros H. injection H as <- <-.
    split; [right; auto |]. split; [| split]; try discriminate.
    reflexivity.
Qed.

Lemma bonus_spec_witness :
  snd (bonus (sup_with_salary 71690 supervisor_195000_staffed))
  = sup_with_salary 81690 supervisor_195000_staffed
  /\ snd (bonus supervisor_195000_staffed)
     = sup_with_salary 50000 supervisor_195000_staffed
  /\ snd (bonus supervisor1_full) = supervisor1_full.
Proof.
  split; [| split].
  - apply (proj1 (proj2 (bonus_spec
                           (sup_with_salary 71690 supervisor_195000_staffed)
                           _ (Ret true) eq_refl)));
      [reflexivity | vm_compute; split; discriminate].
  - apply (proj1 (proj2 (proj2 (bonus_spec supervisor_195000_staffed
                                  _ (Ret true) eq_refl))));
      [reflexivity | vm_compute; intros [_ H]; apply H; reflexivity].
  - apply (proj2 (proj2 (proj2 (bonus_spec supervisor1_full
                                  _ (Ret false) eq_refl)))).
    reflexivity.
Defined.

(** C2 as stated fails at salary 195000: with five workers [bonus] returns
    [True], and the salary afterwards is 50000, not 205000. *)
Lemma bonus_195000_not_plus_10000 :
  number_of_workers supervisor_195000_staffed = 5
  /\ annual_salary supervisor_195000_staffed = 195000
  /\ fst (bonus supervisor_195000_staffed) = Ret true
  /\ annual_salary (snd (bonus supervisor_195000_staffed)) = 50000
  /\ annual_salary (snd (bonus supervisor_195000_staffed))
     <> annual_salary supervisor_195000_staffed + 10000.
Proof. vm_compute. repeat split; discriminate. Qed.

(** *** The roster *)

Lemma held_le_size (arr : list (option ProductionWorker)) :
  held arr <= size arr.
Proof.
  unfold held, size. apply Nat2Z.inj_le. apply filter_length_le.
Qed.

Lemma held_empty_slots (k : nat) (ws : list ProductionWorker) :
  held (repeat None k ++ map Some ws) = Z.of_nat (List.length ws).
Proof.
  unfold held. f_equal. rewrite filter_app, length_app.
  assert (E1 : forall n, filter (fun o : option ProductionWorker =>
                                   match o with Some _ => true
                                           | None => false end)
                                (repeat None n) = []).
  { induction n as [| n IH]; cbn; [reflexivity | exact IH]. }
  rewrite E1. cbn [List.length Nat.add].
  induction ws as [| w ws IH]; cbn; [reflexivity | now rewrite IH].
Qed.

Lemma size_tl_append (arr : list (option ProductionWorker))
      (w : ProductionWorker) :
  size (tl (arr ++ [Some w])) = size arr.
Proof.
  unfold size. f_equal. destruct arr as [| o arr]; cbn; [reflexivity |].
  rewrite length_app. cbn. lia.
Qed.

Lemma set_supervisor_shift_member (shift : PyVal) (s : ShiftSupervisor) :
  exists m, set_supervisor_shift shift s = (Ret tt, sup_with_shift m s).
Proof.
  unfold set_supervisor_shift.
  destruct shift as [| b | z | t | k | t];
    try (exists SUP_DEFAULT_SHIFT; reflexivity).
  - destruct (int_between 1 3 (VInt z)) eqn:E.
    + apply int_between_true in E. destruct E as [z' [E Hz]].
      injection E as <-.
      destruct (Shift_call_value z Hz) as [m [Hm _]].
      exists m. run_py. cbn [the_int]. rewrite Hm. reflexivity.
    + exists SUP_DEFAULT_SHIFT. reflexivity.
  - exists k. reflexivity.
Qed.

Lemma set_annual_salary_range (salary : PyVal) (s : ShiftSupervisor) :
  exists z, set_annual_salary salary s = (Ret tt, sup_with_salary z s)
            /\ 50000 <= z <= 200000.
Proof.
  unfold set_annual_salary, valid_salary.
  destruct (int_between _ _ salary) eqn:E.
  - apply int_between_true in E. destruct E as [z [-> Hz]].
    exists z. split; [reflexivity | exact Hz].
  - exists DEFAULT_SALARY. split; [reflexivity |].
    unfold DEFAULT_SALARY. lia.
Qed.

(** The count setter: the count it leaves is never negative when it
    returns, and nothing changes when it raises. *)
Lemma set_number_of_workers_cases (v : PyVal) (s : ShiftSupervisor) :
  (exists z, as_number v = Some z
             /\ set_number_of_workers v s
                = (Ret tt, sup_with_num_worker (if z <=? 0 then 0 else z) s))
  \/ (as_number v = None
      /\ set_number_of_workers v s = (Raise TypeError, s)).
Proof.
  unfold set_number_of_workers, py_le_int, the_number. run_py.
  destruct (as_number v) as [z |] eqn:E.
  - left. exists z. split; [reflexivity |].
    destruct (z <=? 0); reflexivity.
  - right. split; reflexivity.
Qed.

Lemma bonus_frame (s : ShiftSupervisor) :
  emp_array (snd (bonus s)) = emp_array s
  /\ number_of_workers (snd (bonus s)) = number_of_workers s.
Proof.
  unfold bonus. run_py.
  destruct (WORKERS_REQUIRED <? number_of_workers s); [| auto].
  rewrite set_annual_salary_int. auto.
Qed.

(** Every call other than [add_to_array] leaves the roster alone, and
    every call other than that and the count setter leaves the count
    alone. *)
Lemma sup_step_frame (isnum : N -> bool) (op : SupOp) (s : ShiftSupervisor) :
  (forall w, op <> SAdd w) ->
  emp_array (snd (sup_step isnum op s)) = emp_array s
  /\ (sets_no_count op = true ->
      number_of_workers (snd (sup_step isnum op s)) = number_of_workers s).
Proof.
  intros Hop. destruct op as [v | v | v | v | v | w |]; cbn [sup_step].
  - unfold inherited.
    destruct (set_employee_name isnum v (sup_employee s)); cbn; auto.
  - unfold inherited.
    destruct (set_employee_num v (sup_employee s)); cbn; auto.
  - destruct (set_annual_salary_range v s) as [z [E _]]. rewrite E.
    cbn; auto.
  - destruct (set_supervisor_shift_member v s) as [m E]. rewrite E.
    cbn; auto.
  - split; [| discriminate].
    destruct (set_number_of_workers_cases v s)
      as [[z [_ E]] | [_ E]]; rewrite E; reflexivity.
  - exfalso. apply (Hop w). reflexivity.
  - unfold forget. destruct (bonus_frame s) as [E1 E2].
    destruct (bonus s) as [[b | x] s']; cbn in *; auto.
Qed.

Lemma sup_step_size (isnum : N -> bool) (op : SupOp) (s : ShiftSupervisor) :
  size (emp_array (snd (sup_step isnum op s))) = size (emp_array s).
Proof.
  destruct op as [v | v | v | v | v | w |];
    try (f_equal; apply sup_step_frame; discriminate).
  cbn [sup_step]. rewrite add_to_array_cases.
  destruct (negb (shift_valid s w)); [reflexivity |].
  destruct (size (emp_array s) <=? number_of_workers s); [reflexivity |].
  cbn. apply size_tl_append.
Qed.

Lemma sup_run_size (isnum : N -> bool) (ops : list SupOp) :
  forall s, size (emp_array (sup_run isnum ops s)) = size (emp_array s).
Proof.
  induction ops as [| op ops IH]; intros s; cbn [sup_run].
  - reflexivity.
  - rewrite IH. apply sup_step_size.
Qed.

(** A successful [add_to_array] drops an empty slot and puts the worker
    behind the ones already there. *)
Lemma add_to_array_shape (n0 : Z) (w : ProductionWorker)
      (s : ShiftSupervisor) :
  roster_shape n0 s -> roster_shape n0 (snd (add_to_array w s)).
Proof.
  intros (k & ws & Harr & Hcount & Hn0). rewrite add_to_array_cases.
  destruct (negb (shift_valid s w)); [exists k, ws; auto |].
  destruct (Z.leb_spec (size (emp_array s)) (number_of_workers s))
    as [Hfull | Hroom]; [exists k, ws; auto |].
  unfold size in Hroom. rewrite Harr, length_app, repeat_length,
    length_map in Hroom.
  destruct k as [| k]; [lia |].
  exists k, (ws ++ [w]). cbn [snd emp_array number_of_workers
                              sup_with_num_worker sup_with_array].
  rewrite Harr. cbn [repeat app tl].
  rewrite map_app, app_assoc, length_app. cbn [map List.length].
  split; [reflexivity |]. split; [| exact Hn0].
  destruct (Z.leb_spec (number_of_workers s + 1) 0); lia.
Qed.

Lemma sup_step_shape (isnum : N -> bool) (n0 : Z) (op : SupOp)
      (s : ShiftSupervisor) :
  sets_no_count op = true ->
  roster_shape n0 s -> roster_shape n0 (snd (sup_step isnum op s)).
Proof.
  intros Hop Hs.
  destruct op as [v | v | v | v | v | w |]; try discriminate;
    try (destruct Hs as (k & ws & Harr & Hcount & Hn0);
         match goal with
         | |- roster_shape _ (snd (sup_step _ ?o _)) =>
           destruct (sup_step_frame isnum o s) as [E1 E2];
           [discriminate |]
         end;
         exists k, ws; rewrite E1, (E2 eq_refl); auto).
  cbn [sup_step]. apply add_to_array_shape. exact Hs.
Qed.

Lemma sup_run_shape (isnum : N -> bool) (n0 : Z) (ops : list SupOp) :
  forallb sets_no_count ops = true ->
  forall s, roster_shape n0 s -> roster_shape n0 (sup_run isnum ops s).
Proof.
  induction ops as [| op ops IH]; intros Hops s Hs; cbn [sup_run].
  - exact Hs.
  - cbn [forallb] in Hops. apply andb_true_iff in Hops.
    destruct Hops as [Hop Hops].
    apply IH; [exact Hops |]. apply sup_step_shape; assumption.
Qed.

Lemma roster_shape_count (n0 : Z) (s : ShiftSupervisor) :
  roster_shape n0 s -> number_of_workers s = n0 + held (emp_array s).
Proof.
  intros (k & ws & Harr & Hcount & _).
  rewrite Harr, held_empty_slots. exact Hcount.
Qed.

Lemma valid_arr_capacity_pos (v : PyVal) : 0 < valid_arr_capacity v.
Proof.
  unfold valid_arr_capacity, DEFAULT_CAPACITY.
  destruct v; try lia. destruct (Z.ltb_spec 0 z); lia.
Qed.

(** What the constructor leaves: an empty roster of the validated
    capacity and a count that is never negative. *)
Lemma ShiftSupervisor_new_roster (isnum : N -> bool)
      (alloc : Z -> option PyExc)
      (name number salary shift cap nw : PyVal) (s0 : ShiftSupervisor) :
  ShiftSupervisor_new isnum alloc name number salary shift cap nw = Ret s0 ->
  emp_array s0 = repeat None (Z.to_nat (valid_arr_capacity cap))
  /\ 0 <= number_of_workers s0
  /\ (py_le_int nw 0 = Ret true -> number_of_workers s0 = 0).
Proof.
  unfold ShiftSupervisor_new, ShiftSupervisor_init. run_py.
  destruct (set_annual_salary_range salary ShiftSupervisor_blank)
    as [z [E1 _]]. rewrite E1.
  destruct (set_supervisor_shift_member shift
              (sup_with_salary z ShiftSupervisor_blank)) as [m E2].
  rewrite E2. unfold numpy_empty.
  destruct (alloc (valid_arr_capacity cap)); [discriminate |].
  match goal with
  | |- context [set_number_of_workers nw ?s] =>
    destruct (set_number_of_workers_cases nw s) as [[c [Hc E3]] | [_ E3]];
      rewrite E3
  end; [| discriminate].
  match goal with
  | |- context [Employee_init isnum name number ?e] =>
    destruct (Employee_init isnum name number e) as [[u | x] e']
  end; intros H; [| discriminate].
  injection H as <-. cbn.
  split; [reflexivity |]. split.
  - destruct (Z.leb_spec c 0); lia.
  - unfold py_le_int. rewrite Hc. intros H. injection H as ->.
    reflexivity.
Qed.

(** C4 (amended).  For a supervisor that the constructor has returned and
    any sequence of later calls (failed ones included), the roster keeps
    exactly the validated capacity as its number of slots and never holds
    more workers than that.  When no call sets the worker count directly,
    the count equals the count stored by the constructor plus the number of
    workers held; it equals the number of workers held when the
    constructor was given a count that is not positive. *)
Theorem roster_invariant (isnum : N -> bool) (alloc : Z -> option PyExc)
        (name number salary shift cap nw : PyVal)
        (s0 : ShiftSupervisor) (ops : list SupOp) :
  ShiftSupervisor_new isnum alloc name number salary shift cap nw = Ret s0 ->
  let s := sup_run isnum ops s0 in
  size (emp_array s) = valid_arr_capacity cap
  /\ held (emp_array s) <= valid_arr_capacity cap
  /\ (forallb sets_no_count ops = true ->
      number_of_workers s = number_of_workers s0 + held (emp_array s)
      /\ (py_le_int nw 0 = Ret true ->
          number_of_workers s = held (emp_array s))).
Proof.
  intros Hnew s.
  destruct (ShiftSupervisor_new_roster _ _ _ _ _ _ _ _ _ Hnew)
    as (Harr & Hpos & Hzero).
  assert (Hsize : size (emp_array s) = valid_arr_capacity cap).
  { unfold s. rewrite sup_run_size, Harr. unfold size.
    rewrite repeat_length, Z2Nat.id; [reflexivity |].
    pose proof (valid_arr_capacity_pos cap). lia. }
  split; [exact Hsize |]. split.
  - rewrite <- Hsize. apply held_le_size.
  - intros Hops.
    assert (Hshape : roster_shape (number_of_workers s0) s).
    { apply sup_run_shape; [exact Hops |].
      exists (Z.to_nat (valid_arr_capacity cap)), [].
      rewrite Harr. cbn [map List.length].
      rewrite app_nil_r. repeat split; [lia | exact Hpos]. }
    apply roster_shape_count in Hshape. split; [exact Hshape |].
    intros Hnw. rewrite Hshape, (Hzero Hnw). lia.
Qed.

Lemma roster_invariant_witness :
  size (emp_array (sup_run ascii_numeric [SAdd worker4] supervisor1_full)) = 3
  /\ held (emp_array (sup_run ascii_numeric [SAdd worker4] supervisor1_full))
     <= 3
  /\ number_of_workers supervisor1_full = held (emp_array supervisor1_full).
Proof.
  pose proof (roster_invariant ascii_numeric numpy_refuses_example
                (py "Zach Mccall") (VInt 2566)
                (VInt 68590) (VShift NIGHT) (VInt 3) (VInt 0) supervisor1)
    as H.
  split; [| split].
  - exact (proj1 (H [SAdd worker1; SAdd worker2; SAdd worker3; SAdd worker4]
                    eq_refl)).
  - exact (proj1 (proj2 (H [SAdd worker1; SAdd worker2; SAdd worker3;
                            SAdd worker4] eq_refl))).
  - exact (proj2 (proj2 (proj2 (H [SAdd worker1; SAdd worker2; SAdd worker3]
                                  eq_refl)) eq_refl) eq_refl).
Defined.

(** C4 as stated fails for a construction with an explicit worker count:
    the count is 2 and the roster holds no worker. *)
Lemma explicit_count_not_held :
  exists s,
    ShiftSupervisor_new ascii_numeric numpy_refuses_example (py "Zach Mccall") (VInt 2566)
                        (VInt 68590) (VShift NIGHT) (VInt 3) (VInt 2)
    = Ret s
    /\ number_of_workers s = 2
    /\ held (emp_array s) = 0
    /\ number_of_workers s <> held (emp_array s).
Proof.
  eexists. split; [vm_compute; reflexivity |].
  vm_compute. repeat split; discriminate.
Qed.

(** In the states of [roster_invariant] the count is at least the number
    of workers held: a roster whose slots are all taken is full for
    [add_to_array]. *)
Lemma all_slots_taken_is_full (n0 : Z) (s : ShiftSupervisor) :
  roster_shape n0 s ->
  size (emp_array s) <= held (emp_array s) ->
  size (emp_array s) <= number_of_workers s.
Proof.
  intros Hshape Hheld. pose proof (roster_shape_count n0 s Hshape) as Hc.
  destruct Hshape as (_ & _ & _ & _ & Hn0). lia.
Qed.

(** A constructed supervisor on which no call has set the worker count
    keeps the shape of the roster: empty slots, then the workers added. *)
Lemma constructed_roster_shape (isnum : N -> bool)
      (alloc : Z -> option PyExc)
      (name number salary shift cap nw : PyVal)
      (s0 : ShiftSupervisor) (ops : list SupOp) :
  ShiftSupervisor_new isnum alloc name number salary shift cap nw = Ret s0 ->
  forallb sets_no_count ops = true ->
  roster_shape (number_of_workers s0) (sup_run isnum ops s0).
Proof.
  intros Hnew Hops.
  destruct (ShiftSupervisor_new_roster _ _ _ _ _ _ _ _ _ Hnew)
    as (Harr & Hpos & _).
  apply sup_run_shape; [exact Hops |].
  exists (Z.to_nat (valid_arr_capacity cap)), [].
  rewrite Harr. cbn [map List.length].
  rewrite app_nil_r. repeat split; [lia | exact Hpos].
Qed.

(** C5 (amended).  For a supervisor that the constructor has returned and
    on which no later call has set the worker count directly: when every
    slot of the roster holds a worker, [add_to_array] with a worker of the
    supervisor's shift raises [IsFull] to the caller and leaves the
    supervisor, roster and worker count included, as it was. *)
Theorem add_to_array_full_roster (isnum : N -> bool)
        (alloc : Z -> option PyExc)
        (name number salary shift cap nw : PyVal)
        (s0 : ShiftSupervisor) (ops : list SupOp) (w : ProductionWorker) :
  ShiftSupervisor_new isnum alloc name number salary shift cap nw = Ret s0 ->
  forallb sets_no_count ops = true ->
  employee_shift w = VShift (supervisor_shift (sup_run isnum ops s0)) ->
  size (emp_array (sup_run isnum ops s0))
  <= held (emp_array (sup_run isnum ops s0)) ->
  add_to_array w (sup_run isnum ops s0)
  = (Raise IsFull, sup_run isnum ops s0).
Proof.
  intros Hnew Hops Hs Hfull.
  apply add_to_array_full; [exact Hs |].
  eapply all_slots_taken_is_full; [| exact Hfull].
  eapply constructed_roster_shape; eassumption.
Qed.

Lemma add_to_array_full_roster_witness :
  add_to_array worker1 supervisor1_full = (Raise IsFull, supervisor1_full).
Proof.
  apply (add_to_array_full_roster ascii_numeric numpy_refuses_example
           (py "Zach Mccall") (VInt 2566) (VInt 68590) (VShift NIGHT)
           (VInt 3) (VInt 0) supervisor1
           [SAdd worker1; SAdd worker2; SAdd worker3] worker1).
  - reflexivity.
  - reflexivity.
  - reflexivity.
  - vm_compute. discriminate.
Defined.

(** C5 as stated fails once a caller has lowered the worker count: the
    roster of [supervisor1_recount] holds a worker in each of its three
    slots, and [add_to_array] with a worker of the supervisor's shift
    returns normally, changes the roster and raises the count to 1. *)
Lemma full_roster_recounted_accepts :
  ShiftSupervisor_new ascii_numeric numpy_refuses_example (py "Zach Mccall")
                      (VInt 2566) (VInt 68590) (VShift NIGHT) (VInt 3)
                      (VInt 0)
  = Ret supervisor1
  /\ supervisor1_recount
     = sup_run ascii_numeric
               [SAdd worker1; SAdd worker2; SAdd worker3;
                SSetNumWorkers (VInt 0)] supervisor1
  /\ employee_shift worker1 = VShift (supervisor_shift supervisor1_recount)
  /\ size (emp_array supervisor1_recount) = 3
  /\ held (emp_array supervisor1_recount) = 3
  /\ fst (add_to_array worker1 supervisor1_recount) = Ret tt
  /\ number_of_workers (snd (add_to_array worker1 supervisor1_recount)) = 1
  /\ emp_array (snd (add_to_array worker1 supervisor1_recount))
     <> emp_array supervisor1_recount.
Proof.
  repeat split; try reflexivity.
  vm_compute. discriminate.
Qed.

(** *** The stored salary *)

Lemma sup_step_salary (isnum : N -> bool) (op : SupOp) (s : ShiftSupervisor) :
  50000 <= annual_salary s <= 200000 ->
  50000 <= annual_salary (snd (sup_step isnum op s)) <= 200000.
Proof.
  intros Hs. destruct op as [v | v | v | v | v | w |]; cbn [sup_step].
  - unfold inherited.
    destruct (set_employee_name isnum v (sup_employee s)); exact Hs.
  - unfold inherited.
    destruct (set_employee_num v (sup_employee s)); exact Hs.
  - destruct (set_annual_salary_range v s) as [z [E Hz]]. rewrite E.
    exact Hz.
  - destruct (set_supervisor_shift_member v s) as [m E]. rewrite E.
    exact Hs.
  - destruct (set_number_of_workers_cases v s)
      as [[z [_ E]] | [_ E]]; rewrite E; exact Hs.
  - rewrite add_to_array_cases.
    destruct (negb (shift_valid s w)); [exact Hs |].
    destruct (size (emp_array s) <=? number_of_workers s); exact Hs.
  - unfold forget, bonus. run_py.
    destruct (WORKERS_REQUIRED <? number_of_workers s); [| exact Hs].
    destruct (set_annual_salary_range
                (VInt (annual_salary s + BONUS_ADD_TO_SALARY)) s)
      as [z [E Hz]].
    rewrite E. exact Hz.
Qed.

(** X17.  The salary of a constructed supervisor stays in
    [50000, 200000] under every sequence of calls, [bonus] included; a
    bonus therefore adds exactly 10000 as long as the salary is at most
    190000. *)
Lemma salary_invariant (isnum : N -> bool) (alloc : Z -> option PyExc)
      (name number salary shift cap nw : PyVal)
      (s0 : ShiftSupervisor) (ops : list SupOp) :
  ShiftSupervisor_new isnum alloc name number salary shift cap nw = Ret s0 ->
  50000 <= annual_salary (sup_run isnum ops s0) <= 200000.
Proof.
  intros Hnew.
  assert (H0 : 50000 <= annual_salary s0 <= 200000).
  { revert Hnew. unfold ShiftSupervisor_new, ShiftSupervisor_init. run_py.
    destruct (set_annual_salary_range salary ShiftSupervisor_blank)
      as [z [E1 Hz]]. rewrite E1.
    destruct (set_supervisor_shift_member shift
                (sup_with_salary z ShiftSupervisor_blank)) as [m E2].
    rewrite E2. unfold numpy_empty.
    destruct (alloc (valid_arr_capacity cap)); [discriminate |].
    match goal with
    | |- context [set_number_of_workers nw ?s] =>
      destruct (set_number_of_workers_cases nw s) as [[c [_ E3]] | [_ E3]];
        rewrite E3
    end; [| discriminate].
    match goal with
    | |- context [Employee_init isnum name number ?e] =>
      destruct (Employee_init isnum name number e) as [[u | x] e']
    end; intros H; [| discriminate].
    injection H as <-. exact Hz. }
  clear Hnew. revert s0 H0.
  induction ops as [| op ops IH]; intros s0 H0; cbn [sup_run].
  - exact H0.
  - apply IH. apply sup_step_salary. exact H0.
Qed.

(** The name setter returns for every value. *)
Lemma set_employee_name_returns (isnum : N -> bool) (name : PyVal)
      (e : Employee) :
  exists n, set_employee_name isnum name e = (Ret tt, with_name n e).
Proof.
  unfold set_employee_name.
  destruct (validate_name isnum name); eexists; reflexivity.
Qed.

(** * Further properties of the code *)

(** ** Setters *)

(** X1.  The supervisor's shift setter never raises and always stores a
    member of [Shift]: the argument itself when it is a member, the member
    whose value is the argument for an [int] from 1 to 3, and DAY for every
    other value. *)
Theorem set_supervisor_shift_spec (shift : PyVal) (s : ShiftSupervisor) :
  exists m,
    set_supervisor_shift shift s = (Ret tt, sup_with_shift m s)
    /\ (forall k, shift = VShift k -> m = k)
    /\ (forall z, shift = VInt z -> 1 <= z <= 3 -> Shift_value m = z)
    /\ ((forall k, shift <> VShift k) ->
        (forall z, shift = VInt z -> ~ 1 <= z <= 3) -> m = DAY).
Proof.
  unfold set_supervisor_shift.
  destruct shift as [| b | z | t | k | t];
    try (exists DAY; run_py; cbn;
         repeat split; intros; try discriminate; reflexivity).
  - destruct (int_between 1 3 (VInt z)) eqn:E.
    + apply int_between_true in E. destruct E as [z' [E Hz]].
      injection E as <-.
      destruct (Shift_call_value z Hz) as [m [Hm Hv]].
      exists m. run_py. cbn [the_int]. rewrite Hm.
      repeat split; intros; try discriminate; try reflexivity.
      * congruence.
      * exfalso. apply (H0 z); [reflexivity | lia].
    + exists DAY. run_py.
      repeat split; intros; try discriminate; try reflexivity.
      exfalso. apply int_between_false in E. apply E. exists z.
      split; [reflexivity |]. injection H as <-. lia.
  - exists k. run_py.
    repeat split; intros; try discriminate; try reflexivity.
    + congruence.
    + exfalso. apply (H k). reflexivity.
Qed.

Lemma set_supervisor_shift_spec_witness :
  set_supervisor_shift (VInt 2) supervisor1
  = (Ret tt, sup_with_shift SWING supervisor1).
Proof.
  destruct (set_supervisor_shift_spec (VInt 2) supervisor1)
    as [m [E [_ [Hv _]]]].
  rewrite E.
  assert (Hm : Shift_value m = 2) by (apply Hv; [reflexivity | lia]).
  destruct m; cbn in Hm; try discriminate. reflexivity.
Defined.

(** X2.  The worker-count setter compares its argument with 0 without a
    type test: a number (an [int] or a [bool]) is stored when positive and
    replaced by 0 otherwise; any other value raises [TypeError] and leaves
    the supervisor untouched. *)
Theorem set_number_of_workers_spec (v : PyVal) (s : ShiftSupervisor) :
  match as_number v with
  | Some z =>
    set_number_of_workers v s = (Ret tt, sup_with_num_worker (Z.max 0 z) s)
  | None => set_number_of_workers v s = (Raise TypeError, s)
  end.
Proof.
  destruct (set_number_of_workers_cases v s) as [[z [Hz E]] | [Hz E]];
    rewrite Hz, E; [| reflexivity].
  destruct (Z.leb_spec z 0); do 2 f_equal; lia.
Qed.

Lemma set_employee_num_returns (v : PyVal) (e : Employee) (z : Z) :
  as_number v = Some z -> fst (set_employee_num v e) = Ret tt.
Proof.
  intros E. unfold set_employee_num, determine_benefits, py_lt_int.
  rewrite E. run_py.
  destruct (validate_id v); cbn; destruct (z <? BENEFIT_ID); reflexivity.
Qed.

(** X3.  The id setter raises exactly on the values that are no numbers,
    and only [TypeError]; the failed call has already replaced the id by
    the default 1234 and leaves name and benefits flag as they were. *)
Theorem set_employee_num_outcome (v : PyVal) (e : Employee) :
  match as_number v with
  | Some _ => fst (set_employee_num v e) = Ret tt
  | None =>
    set_employee_num v e
    = (Raise TypeError,
       mkEmployee (employee_name e) 1234 (get_determine_benefits e))
  end.
Proof.
  destruct (as_number v) as [z |] eqn:E.
  - exact (set_employee_num_returns v e z E).
  - rewrite set_employee_num_raises by exact E. reflexivity.
Qed.

(** ** Gross pay *)

(** X4.  Whatever the arguments, [gross_pay] returns an [int] between 0
    and 800. *)
Theorem gross_pay_bounds (rate hour : PyVal) :
  exists z, gross_pay rate hour = VInt z /\ 0 <= z <= 800.
Proof.
  unfold gross_pay, validate_rate, validate_hour.
  destruct (int_between _ _ rate) eqn:Er;
    [| exists 0; split; [reflexivity | lia]].
  destruct (int_between _ _ hour) eqn:Eh;
    [| exists 0; split; [reflexivity | lia]].
  apply int_between_true in Er. destruct Er as [r [-> Hr]].
  apply int_between_true in Eh. destruct Eh as [h [-> Hh]].
  unfold MIN_HOURLY_PAY_RATE, MAX_HOURLY_PAY_RATE, MIN_HOURS_WORKED,
    MAX_HOURS_WORKED in *.
  exists (r * h). split; [reflexivity | cbn [the_int]; nia].
Qed.

(** ** Constructors *)

Lemma Employee_init_outcome (isnum : N -> bool) (name number : PyVal)
      (e : Employee) :
  match as_number number with
  | Some _ => fst (Employee_init isnum name number e) = Ret tt
  | None => fst (Employee_init isnum name number e) = Raise TypeError
  end.
Proof.
  unfold Employee_init. run_py.
  destruct (set_employee_name_returns isnum name e) as [n E]. rewrite E.
  destruct (as_number number) as [z |] eqn:En.
  - pose proof (set_employee_num_returns number (with_name n e) z En) as H.
    destruct (set_employee_num number (with_name n e)) as [o e'].
    cbn in H. rewrite H. reflexivity.
  - rewrite set_employee_num_raises by exact En. reflexivity.
Qed.

(** X5.  The worker constructor runs the shift setter first: when
    [shift in Shift] raises, the constructor fails with that exception;
    when it returns, the constructor fails exactly when the id is no number
    (with [TypeError]), and every other combination of arguments, however
    invalid, gives a worker.  From Python 3.8 to 3.11 the constructor
    therefore raises [TypeError] for a shift that is no enumeration
    member. *)
Theorem ProductionWorker_new_outcome (isnum : N -> bool)
        (contains : PyVal -> outcome bool)
        (name number shift rate hour : PyVal) :
  match in_Shift contains shift with
  | Raise e =>
    ProductionWorker_new isnum contains name number shift rate hour = Raise e
  | Ret _ =>
    match as_number number with
    | Some _ =>
      exists w,
        ProductionWorker_new isnum contains name number shift rate hour
        = Ret w
    | None =>
      ProductionWorker_new isnum contains name number shift rate hour
      = Raise TypeError
    end
  end.
Proof.
  unfold ProductionWorker_new, ProductionWorker_init. run_py.
  pose proof (set_employee_shift_cases contains shift ProductionWorker_blank)
    as Hs.
  destruct (in_Shift contains shift) as [b | e];
    [| rewrite Hs; reflexivity].
  assert (Hret : exists w1,
             set_employee_shift contains shift ProductionWorker_blank
             = (Ret tt, w1)).
  { destruct b; [eexists; exact Hs |].
    destruct Hs as [m [Hs _]]. eexists. exact Hs. }
  destruct Hret as [w1 E1]. rewrite E1.
  destruct (set_hourly_pay_rate_range rate w1) as [r [E2 _]]. rewrite E2.
  destruct (set_hours_worked_range hour (pw_with_rate (VInt r) w1))
    as [h [E3 _]]. rewrite E3.
  match goal with
  | |- context [Employee_init isnum name number ?e] =>
    pose proof (Employee_init_outcome isnum name number e) as H;
      destruct (Employee_init isnum name number e) as [o e']
  end.
  cbn [fst] in H. destruct (as_number number); rewrite H.
  - eexists. reflexivity.
  - reflexivity.
Qed.

Lemma ProductionWorker_new_outcome_witness :
  ProductionWorker_new ascii_numeric contains_38_to_311 (py "Ann")
                       (VInt 1000) (VInt 7) (VInt 10) (VInt 10)
  = Raise TypeError
  /\ ProductionWorker_new ascii_numeric contains_38_to_311 (py "Ann")
                          (py "abc") (VShift DAY) (VInt 10) (VInt 10)
     = Raise TypeError.
Proof.
  split.
  - exact (ProductionWorker_new_outcome ascii_numeric contains_38_to_311
             (py "Ann") (VInt 1000) (VInt 7) (VInt 10) (VInt 10)).
  - exact (ProductionWorker_new_outcome ascii_numeric contains_38_to_311
             (py "Ann") (py "abc") (VShift DAY) (VInt 10) (VInt 10)).
Defined.

(** X6.  The supervisor constructor allocates the roster before it
    looks at the worker count and the id: when [numpy] refuses an array of
    the validated capacity, the constructor fails with that exception;
    otherwise it fails exactly when the worker count or the id is no number
    (with [TypeError]). *)
Theorem ShiftSupervisor_new_outcome (isnum : N -> bool)
        (alloc : Z -> option PyExc)
        (name number salary shift cap nw : PyVal) :
  match alloc (valid_arr_capacity cap) with
  | Some e =>
    ShiftSupervisor_new isnum alloc name number salary shift cap nw = Raise e
  | None =>
    match as_number nw, as_number number with
    | Some _, Some _ =>
      exists s,
        ShiftSupervisor_new isnum alloc name number salary shift cap nw
        = Ret s
    | _, _ =>
      ShiftSupervisor_new isnum alloc name number salary shift cap nw
      = Raise TypeError
    end
  end.
Proof.
  unfold ShiftSupervisor_new, ShiftSupervisor_init. run_py.
  destruct (set_annual_salary_range salary ShiftSupervisor_blank)
    as [z [E1 _]]. rewrite E1.
  destruct (set_supervisor_shift_member shift
              (sup_with_salary z ShiftSupervisor_blank)) as [m E2].
  rewrite E2. unfold numpy_empty.
  destruct (alloc (valid_arr_capacity cap)) as [e |]; [reflexivity |].
  match goal with
  | |- context [set_number_of_workers nw ?s] =>
    destruct (set_number_of_workers_cases nw s) as [[c [Hc E3]] | [Hc E3]];
      rewrite Hc, E3
  end; [| reflexivity].
  match goal with
  | |- context [Employee_init isnum name number ?e] =>
    pose proof (Employee_init_outcome isnum name number e) as H;
      destruct (Employee_init isnum name number e) as [o e']
  end.
  cbn [fst] in H. destruct (as_number number); rewrite H.
  - eexists. reflexivity.
  - reflexivity.
Qed.

Lemma ShiftSupervisor_new_outcome_witness :
  ShiftSupervisor_new ascii_numeric numpy_refuses_example (py "Zach Mccall")
                      (VInt 2566) (VInt 68590) (VShift NIGHT)
                      (VInt (2 ^ 63)) (VInt 0)
  = Raise ValueError
  /\ ShiftSupervisor_new ascii_numeric numpy_refuses_example
                         (py "Zach Mccall") (VInt 2566) (VInt 68590)
                         (VShift NIGHT) (VInt 3) VNone
     = Raise TypeError.
Proof.
  split.
  - exact (ShiftSupervisor_new_outcome ascii_numeric numpy_refuses_example
             (py "Zach Mccall") (VInt 2566) (VInt 68590) (VShift NIGHT)
             (VInt (2 ^ 63)) (VInt 0)).
  - exact (ShiftSupervisor_new_outcome ascii_numeric numpy_refuses_example
             (py "Zach Mccall") (VInt 2566) (VInt 68590) (VShift NIGHT)
             (VInt 3) VNone).
Defined.

(** X7.  A worker built from valid arguments holds exactly these
    arguments, and its benefits flag says whether the id is below 5000. *)
Theorem ProductionWorker_new_valid_args (isnum : N -> bool)
        (contains : PyVal -> outcome bool) (n : str)
        (id : Z) (m : Shift) (r h : Z) :
  isnumeric isnum n = false ->
  1000 <= id <= 99999 -> 0 <= r <= 20 -> 0 <= h <= 40 ->
  ProductionWorker_new isnum contains (VStr n) (VInt id) (VShift m) (VInt r) (VInt h)
  = Ret (mkProductionWorker (mkEmployee n id (id <? 5000))
                            (VShift m) (VInt r) (VInt h)).
Proof.
  intros Hn Hid Hr Hh.
  unfold ProductionWorker_new, ProductionWorker_init, Employee_init,
    set_employee_shift, set_hourly_pay_rate, set_hours_worked,
    set_employee_name, validate_name, validate_rate, validate_hour.
  cbn [in_Shift]. run_py. rewrite Hn. cbn [negb the_str].
  assert (Er : int_between MIN_HOURLY_PAY_RATE MAX_HOURLY_PAY_RATE (VInt r)
               = true) by (apply int_between_true; eauto).
  assert (Eh : int_between MIN_HOURS_WORKED MAX_HOURS_WORKED (VInt h)
               = true) by (apply int_between_true; eauto).
  rewrite Er, Eh. run_py. cbn.
  rewrite set_employee_num_int.
  assert (Ei : (1000 <=? id) && (id <=? 99999) = true)
    by (apply andb_true_iff; split; lia).
  rewrite Ei. reflexivity.
Qed.

Lemma ProductionWorker_new_valid_args_witness :
  ProductionWorker_new ascii_numeric contains_38_to_311 (py "Roselle Lambert") (VInt 6456)
                       (VShift NIGHT) (VInt 13) (VInt 35)
  = Ret (mkProductionWorker
           (mkEmployee (codepoints "Roselle Lambert") 6456 false)
           (VShift NIGHT) (VInt 13) (VInt 35)).
Proof.
  apply (ProductionWorker_new_valid_args ascii_numeric contains_38_to_311
           (codepoints "Roselle Lambert") 6456 NIGHT 13 35);
    try reflexivity; lia.
Defined.

(** ** The roster *)

(** X8.  [add_to_array] raises nothing but [IsFull], and raises it exactly
    when the worker is of the supervisor's shift and the worker count has
    reached the size of the roster. *)
Theorem add_to_array_raises_iff (w : ProductionWorker) (s : ShiftSupervisor)
        (e : PyExc) :
  fst (add_to_array w s) = Raise e <->
  e = IsFull
  /\ employee_shift w = VShift (supervisor_shift s)
  /\ size (emp_array s) <= number_of_workers s.
Proof.
  rewrite add_to_array_cases, <- shift_valid_true.
  destruct (shift_valid s w); cbn [negb fst].
  - destruct (Z.leb_spec (size (emp_array s)) (number_of_workers s))
      as [Hfull | Hroom]; cbn [fst]; split.
    + intros E. injection E as <-. auto.
    + intros [-> _]. reflexivity.
    + discriminate.
    + intros (_ & _ & Hfull). lia.
  - split; [discriminate | intros (_ & E & _); discriminate].
Qed.

Lemma add_to_array_raises_iff_witness :
  fst (add_to_array worker1 supervisor1_full) = Raise IsFull.
Proof.
  apply (proj2 (add_to_array_raises_iff worker1 supervisor1_full IsFull)).
  split; [reflexivity |]. split; [reflexivity |].
  vm_compute. discriminate.
Defined.

(** X9.  A successful [add_to_array] (matching shift, count below the
    size, count not negative) drops the first slot of the roster, puts the
    worker in a new last slot and adds exactly 1 to the count; the size of
    the roster and the other fields stay. *)
Theorem add_to_array_success (w : ProductionWorker) (s : ShiftSupervisor) :
  employee_shift w = VShift (supervisor_shift s) ->
  0 <= number_of_workers s < size (emp_array s) ->
  add_to_array w s
  = (Ret tt,
     sup_with_num_worker (number_of_workers s + 1)
       (sup_with_array (tl (emp_array s) ++ [Some w]) s)).
Proof.
  intros Hs [H0 Hroom]. rewrite add_to_array_cases.
  apply shift_valid_true in Hs. rewrite Hs. cbn [negb].
  destruct (Z.leb_spec (size (emp_array s)) (number_of_workers s));
    [lia |].
  destruct (Z.leb_spec (number_of_workers s + 1) 0); [lia |].
  destruct (emp_array s) as [| o arr] eqn:E; [cbn in Hroom; lia |].
  reflexivity.
Qed.

Lemma add_to_array_success_witness :
  add_to_array worker1 supervisor1
  = (Ret tt,
     sup_with_num_worker 1
       (sup_with_array [None; None; Some worker1] supervisor1)).
Proof.
  apply (add_to_array_success worker1 supervisor1).
  - reflexivity.
  - vm_compute. split; [discriminate | reflexivity].
Defined.

(** X10.  When every slot holds a worker and the count is below the size
    (a client has lowered the count), [add_to_array] with a matching worker
    returns normally and the oldest worker silently leaves the roster. *)
Theorem add_to_array_evicts_oldest (w0 w : ProductionWorker)
        (ws : list ProductionWorker) (s : ShiftSupervisor) :
  emp_array s = map Some (w0 :: ws) ->
  number_of_workers s < size (emp_array s) ->
  employee_shift w = VShift (supervisor_shift s) ->
  fst (add_to_array w s) = Ret tt
  /\ emp_array (snd (add_to_array w s)) = map Some (ws ++ [w]).
Proof.
  intros Harr Hroom Hs. rewrite add_to_array_cases.
  apply shift_valid_true in Hs. rewrite Hs. cbn [negb].
  destruct (Z.leb_spec (size (emp_array s)) (number_of_workers s));
    [lia |].
  split; [reflexivity |]. cbn [snd emp_array sup_with_num_worker
                                   sup_with_array].
  rewrite Harr, map_app. reflexivity.
Qed.

Lemma add_to_array_evicts_oldest_witness :
  fst (add_to_array worker1 supervisor1_recount) = Ret tt
  /\ emp_array (snd (add_to_array worker1 supervisor1_recount))
     = map Some [worker2; worker3; worker1].
Proof.
  apply (add_to_array_evicts_oldest worker1 worker1 [worker2; worker3]
           supervisor1_recount).
  - reflexivity.
  - reflexivity.
  - reflexivity.
Defined.

Lemma workers_held_slots (k : nat) (ws : list ProductionWorker) :
  workers_held (repeat None k ++ map Some ws) = ws.
Proof.
  induction k as [| k IH]; cbn; [| exact IH].
  induction ws as [| w ws IH]; cbn; [reflexivity | now rewrite IH].
Qed.

Lemma shift_valid_same_shift (s s' : ShiftSupervisor)
      (w : ProductionWorker) :
  supervisor_shift s' = supervisor_shift s ->
  shift_valid s' w = shift_valid s w.
Proof. intros H. unfold shift_valid. rewrite H. reflexivity. Qed.

(** Offering workers one after the other to a roster of [k] empty slots
    followed by the workers [hs], with the count equal to their number. *)
Lemma offer_workers (isnum : N -> bool) (ws : list ProductionWorker) :
  forall (s : ShiftSupervisor) (k : nat) (hs : list ProductionWorker),
    emp_array s = repeat None k ++ map Some hs ->
    number_of_workers s = Z.of_nat (List.length hs) ->
    let taken := firstn k (filter (shift_valid s) ws) in
    let s' := sup_run isnum (map SAdd ws) s in
    emp_array s' = repeat None (k - List.length taken)
                          ++ map Some (hs ++ taken)
    /\ number_of_workers s' = Z.of_nat (List.length (hs ++ taken))
    /\ supervisor_shift s' = supervisor_shift s.
Proof.
  induction ws as [| w ws IH]; intros s k hs Harr Hcount.
  - cbn [map sup_run filter]. rewrite firstn_nil. cbn [List.length].
    rewrite Nat.sub_0_r, app_nil_r. auto.
  - cbn [map sup_run sup_step filter]. rewrite add_to_array_cases.
    destruct (shift_valid s w) eqn:Ev; cbn [negb snd].
    + destruct (Z.leb_spec (size (emp_array s)) (number_of_workers s))
        as [Hfull | Hroom]; cbn [snd].
      * assert (k = 0%nat) as ->.
        { unfold size in Hfull.
          rewrite Harr, length_app, repeat_length, length_map in Hfull.
          lia. }
        specialize (IH s 0%nat hs Harr Hcount). cbn zeta in IH.
        rewrite firstn_O in *. exact IH.
      * unfold size in Hroom.
        rewrite Harr, length_app, repeat_length, length_map in Hroom.
        destruct k as [| k]; [lia |].
        match goal with
        | |- context [sup_run isnum _ ?t] => set (s1 := t)
        end.
        assert (Hshift : supervisor_shift s1 = supervisor_shift s)
          by reflexivity.
        assert (Harr1 : emp_array s1
                        = repeat None k ++ map Some (hs ++ [w])).
        { unfold s1. cbn [emp_array sup_with_num_worker sup_with_array].
          rewrite Harr. cbn [repeat app tl].
          rewrite map_app, app_assoc. reflexivity. }
        assert (Hcount1 : number_of_workers s1
                          = Z.of_nat (List.length (hs ++ [w]))).
        { unfold s1. cbn [number_of_workers sup_with_num_worker].
          rewrite length_app. cbn [List.length].
          destruct (Z.leb_spec (number_of_workers s + 1) 0); lia. }
        specialize (IH s1 k (hs ++ [w]) Harr1 Hcount1). cbn zeta in IH.
        rewrite (filter_ext _ _
                   (fun x => shift_valid_same_shift s s1 x Hshift)) in IH.
        destruct IH as (IH1 & IH2 & IH3).
        cbn [firstn List.length Nat.sub].
        rewrite <- app_assoc in IH1, IH2. cbn [app] in IH1, IH2.
        rewrite IH1, IH2, IH3. auto.
    + apply IH; assumption.
Qed.

(** X11.  A supervisor built with a worker count that is not positive and
    then offered the workers [ws] one call after the other (the caller
    going on after [IsFull]) holds, in the order in which they were
    offered, the first C workers of the supervisor's shift among [ws],
    where C is the capacity; the worker count is their number. *)
Theorem roster_holds_first_matching (isnum : N -> bool)
        (alloc : Z -> option PyExc)
        (name number salary shift cap nw : PyVal)
        (s0 : ShiftSupervisor) (ws : list ProductionWorker) :
  ShiftSupervisor_new isnum alloc name number salary shift cap nw = Ret s0 ->
  py_le_int nw 0 = Ret true ->
  let s := sup_run isnum (map SAdd ws) s0 in
  let taken := firstn (Z.to_nat (valid_arr_capacity cap))
                      (filter (shift_valid s0) ws) in
  workers_held (emp_array s) = taken
  /\ number_of_workers s = Z.of_nat (List.length taken).
Proof.
  intros Hnew Hnw.
  destruct (ShiftSupervisor_new_roster _ _ _ _ _ _ _ _ _ Hnew)
    as (Harr & _ & Hzero).
  assert (Harr0 : emp_array s0
                  = repeat None (Z.to_nat (valid_arr_capacity cap))
                           ++ map Some []).
  { rewrite Harr. cbn [map]. now rewrite app_nil_r. }
  pose proof (offer_workers isnum ws s0 _ [] Harr0 (Hzero Hnw)) as H.
  cbn zeta in *. cbn [app] in H. destruct H as (H1 & H2 & _).
  rewrite H1, workers_held_slots. auto.
Qed.

Lemma roster_holds_first_matching_witness :
  workers_held
    (emp_array
       (sup_run ascii_numeric
                (map SAdd [worker4; worker1; worker2; worker5; worker3;
                           worker1]) supervisor1))
  = [worker1; worker2; worker3].
Proof.
  exact (proj1 (roster_holds_first_matching ascii_numeric
                  numpy_refuses_example (py "Zach Mccall") (VInt 2566) (VInt 68590)
                  (VShift NIGHT) (VInt 3) (VInt 0) supervisor1
                  [worker4; worker1; worker2; worker5; worker3; worker1]
                  eq_refl eq_refl)).
Defined.

Lemma full_roster_adds_nothing (isnum : N -> bool)
      (ws : list ProductionWorker) (s : ShiftSupervisor) :
  size (emp_array s) <= number_of_workers s ->
  sup_run isnum (map SAdd ws) s = s.
Proof.
  intros Hfull. induction ws as [| w ws IH]; cbn [map sup_run sup_step].
  - reflexivity.
  - rewrite add_to_array_cases.
    destruct (negb (shift_valid s w)); [exact IH |].
    destruct (Z.leb_spec (size (emp_array s)) (number_of_workers s));
      [exact IH | lia].
Qed.

(** X12.  Adding workers inside one [try] block, where the first [IsFull]
    skips the remaining calls, leaves the supervisor in the same state as
    calling [add_to_array] for every worker and going on after each
    [IsFull]: once the roster is full the skipped calls would change
    nothing. *)
Theorem add_all_same_state (isnum : N -> bool)
        (ws : list ProductionWorker) (s : ShiftSupervisor) :
  snd (add_all ws s) = sup_run isnum (map SAdd ws) s.
Proof.
  revert s. induction ws as [| w ws IH]; intros s.
  - reflexivity.
  - cbn [add_all map sup_run sup_step]. unfold bind at 1.
    destruct (add_to_array w s) as [[u | e] s1] eqn:E.
    + cbn [snd]. apply IH.
    + rewrite add_to_array_cases in E.
      destruct (negb (shift_valid s w)); [discriminate |].
      destruct (Z.leb_spec (size (emp_array s)) (number_of_workers s))
        as [Hfull | Hroom]; [| discriminate].
      injection E as _ <-. cbn [snd].
      symmetry. apply full_roster_adds_nothing. exact Hfull.
Qed.

Lemma salary_invariant_witness :
  50000 <= annual_salary
             (sup_run ascii_numeric
                      [SBonus; SSetSalary (VInt 7); SBonus;
                       SSetNum (py "abc")] supervisor_195000_staffed)
        <= 200000.
Proof.
  apply (salary_invariant ascii_numeric numpy_refuses_example
           (py "Helena Navarro") (VInt 6456)
           (VInt 195000) (VShift DAY) (VInt 5) (VInt 0) supervisor_195000
           ([SAdd worker4; SAdd worker5; SAdd worker6; SAdd worker7;
             SAdd worker8]
              ++ [SBonus; SSetSalary (VInt 7); SBonus; SSetNum (py "abc")])).
  reflexivity.
Defined.

(** ** The bonus *)

Lemma bonus_granted (s : ShiftSupervisor) :
  4 < number_of_workers s ->
  50000 <= annual_salary s + 10000 <= 200000 ->
  bonus s = (Ret true, sup_with_salary (annual_salary s + 10000) s).
Proof.
  intros Hc Hs. unfold bonus, WORKERS_REQUIRED, BONUS_ADD_TO_SALARY. run_py.
  destruct (Z.ltb_spec 4 (number_of_workers s)); [| lia].
  rewrite set_annual_salary_int.
  assert (E : (50000 <=? annual_salary s + 10000)
              && (annual_salary s + 10000 <=? 200000) = true)
    by (apply andb_true_iff; split; lia).
  rewrite E. reflexivity.
Qed.

(** X13.  [bonus] is not idempotent: [n] calls in a row on a supervisor
    with more than 4 workers add [n] times 10000 to the salary, as long as
    the sum stays within the salary range; count and roster do not
    change. *)
Theorem bonus_compounds (isnum : N -> bool) (n : nat) :
  forall s : ShiftSupervisor,
    4 < number_of_workers s ->
    50000 <= annual_salary s ->
    annual_salary s + 10000 * Z.of_nat n <= 200000 ->
    let s' := sup_run isnum (repeat SBonus n) s in
    annual_salary s' = annual_salary s + 10000 * Z.of_nat n
    /\ number_of_workers s' = number_of_workers s
    /\ emp_array s' = emp_array s.
Proof.
  induction n as [| n IH]; intros s Hc Hlo Hhi.
  - cbn [repeat sup_run Z.of_nat]. split; [lia | split; reflexivity].
  - cbn [repeat sup_run sup_step]. unfold forget.
    rewrite bonus_granted by lia. cbn [snd].
    destruct (IH (sup_with_salary (annual_salary s + 10000) s))
      as (E1 & E2 & E3); cbn [annual_salary number_of_workers
                                sup_with_salary]; try lia.
    cbn zeta. rewrite E1, E2, E3.
    cbn [annual_salary number_of_workers emp_array sup_with_salary].
    split; [lia | split; reflexivity].
Qed.

Lemma bonus_compounds_witness :
  annual_salary
    (sup_run ascii_numeric [SBonus; SBonus; SBonus]
             (sup_with_salary 71690 supervisor_195000_staffed))
  = 71690 + 10000 * 3.
Proof.
  apply (bonus_compounds ascii_numeric 3
           (sup_with_salary 71690 supervisor_195000_staffed)).
  - reflexivity.
  - vm_compute. discriminate.
  - vm_compute. discriminate.
Defined.

(** X14.  A supervisor built with a worker count that is not positive and
    a capacity of at most 4 never gets a bonus, whatever is called on it,
    as long as no call sets the worker count directly. *)
Theorem small_roster_no_bonus (isnum : N -> bool)
        (alloc : Z -> option PyExc)
        (name number salary shift cap nw : PyVal)
        (s0 : ShiftSupervisor) (ops : list SupOp) :
  ShiftSupervisor_new isnum alloc name number salary shift cap nw = Ret s0 ->
  py_le_int nw 0 = Ret true ->
  valid_arr_capacity cap <= 4 ->
  forallb sets_no_count ops = true ->
  bonus (sup_run isnum ops s0) = (Ret false, sup_run isnum ops s0).
Proof.
  intros Hnew Hnw Hcap Hops.
  destruct (ShiftSupervisor_new_roster _ _ _ _ _ _ _ _ _ Hnew)
    as (Harr & Hpos & Hzero).
  assert (Hshape : roster_shape 0 (sup_run isnum ops s0)).
  { apply sup_run_shape; [exact Hops |].
    exists (Z.to_nat (valid_arr_capacity cap)), [].
    rewrite Harr, (Hzero Hnw). cbn [map List.length].
    rewrite app_nil_r. repeat split; lia. }
  apply roster_shape_count in Hshape.
  pose proof (held_le_size (emp_array (sup_run isnum ops s0))) as Hle.
  rewrite sup_run_size, Harr in Hle. unfold size in Hle.
  rewrite repeat_length, Z2Nat.id in Hle
    by (pose proof (valid_arr_capacity_pos cap); lia).
  unfold bonus, WORKERS_REQUIRED. run_py.
  destruct (Z.ltb_spec 4 (number_of_workers (sup_run isnum ops s0)));
    [lia | reflexivity].
Qed.

Lemma small_roster_no_bonus_witness :
  bonus (sup_run ascii_numeric
                 [SAdd worker1; SAdd worker2; SAdd worker3; SAdd worker1;
                  SBonus] supervisor1)
  = (Ret false,
     sup_run ascii_numeric
             [SAdd worker1; SAdd worker2; SAdd worker3; SAdd worker1;
              SBonus] supervisor1).
Proof.
  apply (small_roster_no_bonus ascii_numeric numpy_refuses_example
           (py "Zach Mccall") (VInt 2566)
           (VInt 68590) (VShift NIGHT) (VInt 3) (VInt 0) supervisor1).
  - reflexivity.
  - reflexivity.
  - vm_compute. discriminate.
  - reflexivity.
Defined.

(** ** The worker count *)

Lemma sup_step_count (isnum : N -> bool) (op : SupOp) (s : ShiftSupervisor) :
  0 <= number_of_workers s ->
  0 <= number_of_workers (snd (sup_step isnum op s))
  /\ (sets_no_count op = true ->
      number_of_workers s <= number_of_workers (snd (sup_step isnum op s))).
Proof.
  intros H0.
  destruct op as [v | v | v | v | v | w |].
  - destruct (sup_step_frame isnum (SSetName v) s) as [_ E];
      [discriminate |]. rewrite (E eq_refl). split; [| intros _]; lia.
  - destruct (sup_step_frame isnum (SSetNum v) s) as [_ E];
      [discriminate |]. rewrite (E eq_refl). split; [| intros _]; lia.
  - destruct (sup_step_frame isnum (SSetSalary v) s) as [_ E];
      [discriminate |]. rewrite (E eq_refl). split; [| intros _]; lia.
  - destruct (sup_step_frame isnum (SSetShift v) s) as [_ E];
      [discriminate |]. rewrite (E eq_refl). split; [| intros _]; lia.
  - split; [| discriminate]. cbn [sup_step].
    destruct (set_number_of_workers_cases v s) as [[z [_ E]] | [_ E]];
      rewrite E; cbn; [| exact H0].
    destruct (Z.leb_spec z 0); lia.
  - cbn [sup_step]. rewrite add_to_array_cases.
    destruct (negb (shift_valid s w)); [cbn; split; [| intros _]; lia |].
    destruct (size (emp_array s) <=? number_of_workers s);
      [cbn; split; [| intros _]; lia |].
    cbn. destruct (Z.leb_spec (number_of_workers s + 1) 0);
      (split; [| intros _]; lia).
  - destruct (sup_step_frame isnum SBonus s) as [_ E];
      [discriminate |]. rewrite (E eq_refl). split; [| intros _]; lia.
Qed.

Lemma sup_run_app (isnum : N -> bool) (ops1 ops2 : list SupOp) :
  forall s, sup_run isnum (ops1 ++ ops2) s
            = sup_run isnum ops2 (sup_run isnum ops1 s).
Proof.
  induction ops1 as [| op ops1 IH]; intros s; cbn [app sup_run].
  - reflexivity.
  - apply IH.
Qed.

Lemma sup_run_count_nonneg (isnum : N -> bool) (ops : list SupOp) :
  forall s, 0 <= number_of_workers s ->
            0 <= number_of_workers (sup_run isnum ops s).
Proof.
  induction ops as [| op ops IH]; intros s H0; cbn [sup_run].
  - exact H0.
  - apply IH. apply sup_step_count. exact H0.
Qed.

Lemma sup_run_count_grows (isnum : N -> bool) (ops : list SupOp) :
  forallb sets_no_count ops = true ->
  forall s, 0 <= number_of_workers s ->
            number_of_workers s <= number_of_workers (sup_run isnum ops s).
Proof.
  induction ops as [| op ops IH]; intros Hops s H0; cbn [sup_run].
  - lia.
  - cbn [forallb] in Hops. apply andb_true_iff in Hops.
    destruct Hops as [Hop Hops].
    destruct (sup_step_count isnum op s H0) as [H1 H2].
    specialize (IH Hops _ H1). specialize (H2 Hop). lia.
Qed.

(** X15.  The worker count of a constructed supervisor is never negative,
    whatever is called on it, and calls other than the count setter never
    lower it: no operation takes a worker off the count. *)
Theorem worker_count_monotone (isnum : N -> bool)
        (alloc : Z -> option PyExc)
        (name number salary shift cap nw : PyVal)
        (s0 : ShiftSupervisor) (ops1 ops2 : list SupOp) :
  ShiftSupervisor_new isnum alloc name number salary shift cap nw = Ret s0 ->
  forallb sets_no_count ops2 = true ->
  0 <= number_of_workers (sup_run isnum ops1 s0)
    <= number_of_workers (sup_run isnum (ops1 ++ ops2) s0).
Proof.
  intros Hnew Hops.
  destruct (ShiftSupervisor_new_roster _ _ _ _ _ _ _ _ _ Hnew)
    as (_ & Hpos & _).
  pose proof (sup_run_count_nonneg isnum ops1 s0 Hpos) as H1.
  split; [exact H1 |]. rewrite sup_run_app.
  apply sup_run_count_grows; assumption.
Qed.

Lemma worker_count_monotone_witness :
  0 <= number_of_workers
         (sup_run ascii_numeric
                  [SAdd worker1; SSetNumWorkers (VInt (-4))] supervisor1)
    <= number_of_workers
         (sup_run ascii_numeric
                  ([SAdd worker1; SSetNumWorkers (VInt (-4))]
                     ++ [SAdd worker2; SBonus; SAdd worker4]) supervisor1).
Proof.
  apply (worker_count_monotone ascii_numeric numpy_refuses_example
           (py "Zach Mccall") (VInt 2566)
           (VInt 68590) (VShift NIGHT) (VInt 3) (VInt 0) supervisor1).
  - reflexivity.
  - reflexivity.
Defined.

(** ** Defaults and gross pay *)

(** X16.  An invalid rate is not rejected but paid at the default rate 1:
    a worker constructed with a rate that fails validation and valid hours
    [h] has gross pay [h].  A worker constructed with hours that fail
    validation has gross pay 0, whatever the rate. *)
Theorem gross_pay_after_defaults (isnum : N -> bool)
        (contains : PyVal -> outcome bool)
        (name number shift rate hour : PyVal) (w : ProductionWorker) :
  ProductionWorker_new isnum contains name number shift rate hour = Ret w ->
  (forall h, validate_rate rate = false -> hour = VInt h -> 0 <= h <= 40 ->
             gross_pay (hourly_pay_rate w) (hours_worked w) = VInt h)
  /\ (validate_hour hour = false ->
      gross_pay (hourly_pay_rate w) (hours_worked w) = VInt 0).
Proof.
  intros Hnew.
  destruct (ProductionWorker_new_fields _ _ _ _ _ _ _ _ Hnew)
    as (_ & _ & Er & Eh & _).
  rewrite Er, Eh. split.
  - intros h Hr -> Hh. rewrite Hr.
    assert (Ev : validate_hour (VInt h) = true)
      by (apply int_between_true; eauto).
    rewrite Ev. unfold gross_pay. rewrite Ev. cbn.
    f_equal. destruct h; reflexivity.
  - intros Hh. rewrite Hh. unfold gross_pay.
    match goal with
    | |- (if ?b then _ else _) = _ => destruct b
    end; [| reflexivity].
    cbn [the_int]. unfold DEFAULT_HOURS_WORKED. f_equal. lia.
Qed.

Lemma gross_pay_after_defaults_witness :
  gross_pay (hourly_pay_rate worker5) (hours_worked worker5) = VInt 10.
Proof.
  apply (proj1 (gross_pay_after_defaults ascii_numeric contains_38_to_311
                  (py "Maryrose Hoffman") (VInt 2131) (VShift DAY)
                  (VInt 30) (VInt 10) worker5 eq_refl) 10).
  - reflexivity.
  - reflexivity.
  - lia.
Defined.

(** ** The inherited fields *)

Lemma set_employee_name_valid (isnum : N -> bool) (v : PyVal)
      (e : Employee) :
  let e' := snd (set_employee_name isnum v e) in
  employee_num e' = employee_num e
  /\ (employee_name e' = DEFAULT_NAME
      \/ isnumeric isnum (employee_name e') = false).
Proof.
  unfold set_employee_name.
  destruct (validate_name isnum v) eqn:E; cbn; [| auto].
  apply validate_name_true in E. destruct E as [n [-> Hn]]. auto.
Qed.

Lemma set_employee_num_valid (v : PyVal) (e : Employee) :
  let e' := snd (set_employee_num v e) in
  employee_name e' = employee_name e
  /\ 1000 <= employee_num e' <= 99999.
Proof.
  unfold set_employee_num, validate_id, determine_benefits, py_lt_int.
  run_py.
  assert (Hd : 1000 <= DEFAULT_NUM <= 99999) by (unfold DEFAULT_NUM; lia).
  destruct (int_between _ _ v) eqn:E.
  - apply int_between_true in E. destruct E as [z [-> Hz]].
    unfold MIN_EMPLY_NUM, MAX_EMPLY_NUM in Hz. cbn.
    destruct (z <? BENEFIT_ID); cbn; auto.
  - destruct (as_number v) as [z |]; cbn; [| auto].
    destruct (z <? BENEFIT_ID); cbn; auto.
Qed.

Lemma Employee_init_valid (isnum : N -> bool) (name number : PyVal)
      (e : Employee) :
  employee_valid isnum (snd (Employee_init isnum name number e)).
Proof.
  unfold Employee_init. run_py.
  destruct (set_employee_name_returns isnum name e) as [n E].
  pose proof (set_employee_name_valid isnum name e) as [_ Hn].
  rewrite E in *. cbn [snd] in Hn.
  pose proof (set_employee_num_valid number (with_name n e)) as [H1 H2].
  destruct (set_employee_num number (with_name n e)) as [[u | x] e'];
    cbn [snd] in *; split; try exact H2; rewrite H1; exact Hn.
Qed.

Lemma employee_setters_valid (isnum : N -> bool) (e : Employee) :
  employee_valid isnum e ->
  (forall v, employee_valid isnum (snd (set_employee_name isnum v e)))
  /\ (forall v, employee_valid isnum (snd (set_employee_num v e))).
Proof.
  intros [Hid Hname]. split; intros v.
  - destruct (set_employee_name_valid isnum v e) as [E H].
    split; [rewrite E; exact Hid | exact H].
  - destruct (set_employee_num_valid v e) as [E H].
    split; [exact H | rewrite E; exact Hname].
Qed.

Lemma inherited_snd {S T A} (proj : S -> T) (upd : T -> S -> S)
      (c : Py T A) (s : S) :
  (forall t x, proj (upd t x) = t) ->
  proj (snd (inherited proj upd c s)) = snd (c (proj s)).
Proof.
  intros H. unfold inherited. destruct (c (proj s)) as [o t]. cbn. apply H.
Qed.

Lemma worker_step_employee (isnum : N -> bool)
      (contains : PyVal -> outcome bool) (op : WorkerOp)
      (w : ProductionWorker) :
  employee_valid isnum (pw_employee w) ->
  employee_valid isnum (pw_employee (snd (worker_step isnum contains op w))).
Proof.
  intros Hv. destruct (employee_setters_valid isnum _ Hv) as [Hn Hi].
  destruct op as [v | v | v | v | v]; cbn [worker_step].
  - rewrite inherited_snd by reflexivity. apply Hn.
  - rewrite inherited_snd by reflexivity. apply Hi.
  - destruct (set_employee_shift_frame contains v w) as (E & _).
    rewrite E. exact Hv.
  - destruct (set_hourly_pay_rate_range v w) as [r [E _]]. rewrite E.
    exact Hv.
  - destruct (set_hours_worked_range v w) as [h [E _]]. rewrite E.
    exact Hv.
Qed.

(** X18.  For a worker that the constructor has returned, after any
    sequence of setter calls (failed ones included): the stored id lies in
    [1000, 99999], and the stored name is the placeholder or a string that
    is not purely numeric. *)
Theorem worker_employee_valid (isnum : N -> bool)
        (contains : PyVal -> outcome bool)
        (name number shift rate hour : PyVal) (w : ProductionWorker)
        (ops : list WorkerOp) :
  ProductionWorker_new isnum contains name number shift rate hour = Ret w ->
  employee_valid isnum (pw_employee (worker_run isnum contains ops w)).
Proof.
  intros Hnew.
  assert (H0 : employee_valid isnum (pw_employee w)).
  { destruct (ProductionWorker_new_fields _ _ _ _ _ _ _ _ Hnew)
      as (_ & _ & _ & _ & E).
    rewrite E. apply Employee_init_valid. }
  clear Hnew. revert w H0.
  induction ops as [| op ops IH]; intros w H0; cbn [worker_run].
  - exact H0.
  - apply IH. apply worker_step_employee. exact H0.
Qed.

Lemma worker_employee_valid_witness :
  employee_valid ascii_numeric
    (pw_employee
       (worker_run ascii_numeric contains_38_to_311
                   [WSetNum (VInt 7); WSetName (py "42");
                    WSetNum (py "abc")] worker1)).
Proof.
  apply (worker_employee_valid ascii_numeric contains_38_to_311
           (py "Marco Joseph")
           (VInt 1340) (VShift NIGHT) (VInt 20) (VInt 10) worker1).
  reflexivity.
Defined.

Lemma sup_step_employee (isnum : N -> bool) (op : SupOp)
      (s : ShiftSupervisor) :
  employee_valid isnum (sup_employee s) ->
  employee_valid isnum (sup_employee (snd (sup_step isnum op s))).
Proof.
  intros Hv. destruct (employee_setters_valid isnum _ Hv) as [Hn Hi].
  destruct op as [v | v | v | v | v | w |]; cbn [sup_step].
  - rewrite inherited_snd by reflexivity. apply Hn.
  - rewrite inherited_snd by reflexivity. apply Hi.
  - destruct (set_annual_salary_range v s) as [z [E _]]. rewrite E.
    exact Hv.
  - destruct (set_supervisor_shift_member v s) as [m E]. rewrite E.
    exact Hv.
  - destruct (set_number_of_workers_cases v s)
      as [[z [_ E]] | [_ E]]; rewrite E; exact Hv.
  - rewrite add_to_array_cases.
    destruct (negb (shift_valid s w)); [exact Hv |].
    destruct (size (emp_array s) <=? number_of_workers s); exact Hv.
  - unfold forget, bonus. run_py.
    destruct (WORKERS_REQUIRED <? number_of_workers s); [| exact Hv].
    rewrite set_annual_salary_int. exact Hv.
Qed.

(** X19.  For a supervisor that the constructor has returned, after any
    sequence of calls (failed ones included): the stored id lies in
    [1000, 99999], and the stored name is the placeholder or a string that
    is not purely numeric. *)
Theorem supervisor_employee_valid (isnum : N -> bool)
        (alloc : Z -> option PyExc)
        (name number salary shift cap nw : PyVal)
        (s0 : ShiftSupervisor) (ops : list SupOp) :
  ShiftSupervisor_new isnum alloc name number salary shift cap nw = Ret s0 ->
  employee_valid isnum (sup_employee (sup_run isnum ops s0)).
Proof.
  intros Hnew.
  assert (H0 : employee_valid isnum (sup_employee s0)).
  { revert Hnew. unfold ShiftSupervisor_new, ShiftSupervisor_init. run_py.
    destruct (set_annual_salary_range salary ShiftSupervisor_blank)
      as [z [E1 _]]. rewrite E1.
    destruct (set_supervisor_shift_member shift
                (sup_with_salary z ShiftSupervisor_blank)) as [m E2].
    rewrite E2. unfold numpy_empty.
    destruct (alloc (valid_arr_capacity cap)); [discriminate |].
    match goal with
    | |- context [set_number_of_workers nw ?s] =>
      destruct (set_number_of_workers_cases nw s) as [[c [_ E3]] | [_ E3]];
        rewrite E3
    end; [| discriminate].
    match goal with
    | |- context [Employee_init isnum name number ?e] =>
      pose proof (Employee_init_valid isnum name number e) as Hv;
        destruct (Employee_init isnum name number e) as [[u | x] e']
    end; intros H; [| discriminate].
    injection H as <-. exact Hv. }
  clear Hnew. revert s0 H0.
  induction ops as [| op ops IH]; intros s0 H0; cbn [sup_run].
  - exact H0.
  - apply IH. apply sup_step_employee. exact H0.
Qed.

Lemma supervisor_employee_valid_witness :
  employee_valid ascii_numeric
    (sup_employee
       (sup_run ascii_numeric
                [SSetNum (VInt 100000); SAdd worker1; SSetName (VInt 3)]
                supervisor1)).
Proof.
  apply (supervisor_employee_valid ascii_numeric numpy_refuses_example
           (py "Zach Mccall")
           (VInt 2566) (VInt 68590) (VShift NIGHT) (VInt 3) (VInt 0)
           supervisor1).
  reflexivity.
Defined.
